(** * sprite-forge: the response-shape resolution of [generate_image]

    A shallow embedding of [tools/prompt_tester.py] (request payload,
    transport check, image extraction, [save_image]) and of the payload of
    [tools/verify_dimensions.py], with the Python operations the code relies
    on written out over JSON values: each one either returns or raises. *)

From Stdlib Require Import ZArith List Bool Lia.
From Stdlib Require Import Strings.String Strings.Ascii Strings.Byte.
From Stdlib Require Import Numbers.DecimalString.
From Stdlib Require Import Floats.SpecFloat.
Import ListNotations.

Local Open Scope string_scope.
Local Open Scope Z_scope.

(** ** JSON values, as [json.loads] produces them *)

(** A Python [str] is modelled by [string], one [ascii] per character.  A
    [dict] is an association list read by first match. *)
#[local] Set Warnings "-register-all".
Inductive json : Type :=
| JNull
| JBool (b : bool)
| JInt (n : Z)
| JFloat (f : spec_float)
| JStr (s : string)
| JList (items : list json)
| JDict (fields : list (string * json)).

(** ** Outcomes: a Python call returns a value or raises *)

Inductive pyexc : Type :=
| AttributeError | TypeError | IndexError | KeyError | ValueError
| ZeroDivisionError | JSONDecodeError | BinasciiError | RequestException.

Inductive outcome (A : Type) : Type :=
| Returned (a : A)
| Raised (e : pyexc).
Arguments Returned {A} a.
Arguments Raised {A} e.

Definition bind {A B : Type} (m : outcome A) (k : A -> outcome B) : outcome B :=
  match m with
  | Returned a => k a
  | Raised e => Raised e
  end.

Notation "x <- m ;; k" := (bind m (fun x => k))
  (at level 61, m at next level, right associativity).

(** ** String helpers (Python [str] methods) *)

Module PyStr.

(** [sub in s] for two strings. *)
Fixpoint contains (sub s : string) : bool :=
  if String.prefix sub s then true
  else match s with
       | EmptyString => false
       | String _ rest => contains sub rest
       end.

(** [s.split(sep)] for a one-character separator: the list is never empty. *)
Fixpoint split (sep : ascii) (s : string) : list string :=
  match s with
  | EmptyString => [EmptyString]
  | String c rest =>
      if Ascii.eqb c sep then EmptyString :: split sep rest
      else match split sep rest with
           | seg :: segs => String c seg :: segs
           | [] => [String c EmptyString]
           end
  end.

(** [s.split(sep, 1)]: at most one cut, at the first separator. *)
Fixpoint split1 (sep : ascii) (s : string) : list string :=
  match s with
  | EmptyString => [EmptyString]
  | String c rest =>
      if Ascii.eqb c sep then [EmptyString; rest]
      else match split1 sep rest with
           | seg :: segs => String c seg :: segs
           | [] => [String c EmptyString]
           end
  end.

(** [s[:n]] *)
Definition take (n : nat) (s : string) : string := String.substring 0 n s.

(** [str(n)] for an [int]. *)
Definition of_int (n : Z) : string := NilZero.string_of_int (Z.to_int n).

Definition nonempty (s : string) : bool :=
  match s with EmptyString => false | String _ _ => true end.

(** [c.isspace()], for the characters a [string] holds (code points below
    256): tab to carriage return, the four separators before the space, the
    space, next-line and no-break space. *)
Definition is_space (c : ascii) : bool :=
  let n := N_of_ascii c in
  (N.leb 9 n && N.leb n 13) || (N.leb 28 n && N.leb n 32)
  || N.eqb n 133 || N.eqb n 160.

(** [s.lstrip()] *)
Fixpoint lstrip (s : string) : string :=
  match s with
  | EmptyString => EmptyString
  | String c rest => if is_space c then lstrip rest else s
  end.

(** [s.rstrip()] *)
Fixpoint rstrip (s : string) : string :=
  match s with
  | EmptyString => EmptyString
  | String c rest =>
      match rstrip rest with
      | EmptyString => if is_space c then EmptyString else String c EmptyString
      | kept => String c kept
      end
  end.

(** [s.strip()] *)
Definition strip (s : string) : string := rstrip (lstrip s).

(** no whitespace at either end *)
Definition trimmed (s : string) : Prop := lstrip s = s /\ rstrip s = s.

(** [c.lower()] below 256: the letters A-Z and the accented capitals from
    192 to 222, the multiplication sign 215 apart, move up by 32. *)
Definition lower_char (c : ascii) : ascii :=
  let n := N_of_ascii c in
  if (N.leb 65 n && N.leb n 90) || (N.leb 192 n && N.leb n 222 && negb (N.eqb n 215))
  then ascii_of_N (n + 32)
  else c.

(** [s.lower()] *)
Fixpoint lower (s : string) : string :=
  match s with
  | EmptyString => EmptyString
  | String c rest => String (lower_char c) (lower rest)
  end.

(** [sep.join(xs)] *)
Fixpoint join (sep : string) (xs : list string) : string :=
  match xs with
  | [] => EmptyString
  | [x] => x
  | x :: rest => x ++ sep ++ join sep rest
  end.

End PyStr.

(** ** Python operations on JSON values *)

Fixpoint lookup (k : string) (fields : list (string * json)) : option json :=
  match fields with
  | [] => None
  | (k', v) :: rest => if String.eqb k k' then Some v else lookup k rest
  end.

Definition with_default (o : option json) (d : json) : json :=
  match o with Some v => v | None => d end.

(** [x.get(k, d)]: only a [dict] has the method. *)
Definition py_get (x : json) (k : string) (d : json) : outcome json :=
  match x with
  | JDict fields => Returned (with_default (lookup k fields) d)
  | _ => Raised AttributeError
  end.

(** [x[0]] *)
Definition py_first (x : json) : outcome json :=
  match x with
  | JList (v :: _) => Returned v
  | JList [] => Raised IndexError
  | JStr (String c _) => Returned (JStr (String c EmptyString))
  | JStr EmptyString => Raised IndexError
  | JDict _ => Raised KeyError
  | _ => Raised TypeError
  end.

(** [x[k]] for a string key [k] *)
Definition py_item (x : json) (k : string) : outcome json :=
  match x with
  | JDict fields =>
      match lookup k fields with
      | Some v => Returned v
      | None => Raised KeyError
      end
  | _ => Raised TypeError
  end.

Definition is_str (k : string) (v : json) : bool :=
  match v with JStr s => String.eqb k s | _ => false end.

(** [k in x] for a string [k] *)
Definition py_in (k : string) (x : json) : outcome bool :=
  match x with
  | JDict fields =>
      Returned (match lookup k fields with Some _ => true | None => false end)
  | JStr s => Returned (PyStr.contains k s)
  | JList items => Returned (existsb (is_str k) items)
  | _ => Raised TypeError
  end.

Definition float_nonzero (f : spec_float) : bool :=
  match f with S754_zero _ => false | _ => true end.

(** truth value of [x] in a condition *)
Definition py_truthy (x : json) : bool :=
  match x with
  | JNull => false
  | JBool b => b
  | JInt n => negb (n =? 0)
  | JFloat f => float_nonzero f
  | JStr s => PyStr.nonempty s
  | JList items => match items with [] => false | _ => true end
  | JDict fields => match fields with [] => false | _ => true end
  end.

(** [len(x)]; a [dict] counts its distinct keys *)
Definition py_len (x : json) : outcome Z :=
  match x with
  | JStr s => Returned (Z.of_nat (String.length s))
  | JList items => Returned (Z.of_nat (List.length items))
  | JDict fields =>
      Returned (Z.of_nat (List.length (nodup string_dec (map fst fields))))
  | _ => Raised TypeError
  end.

(** the receiver of a [str] method such as [startswith] *)
Definition py_str_method (x : json) : outcome string :=
  match x with
  | JStr s => Returned s
  | _ => Raised AttributeError
  end.

(** [xs[i]] on a Python list of strings *)
Definition list_item (xs : list string) (i : nat) : outcome string :=
  match nth_error xs i with
  | Some s => Returned s
  | None => Raised IndexError
  end.

(** ** [base64.b64encode] and [base64.b64decode] *)

Module Base64.

Definition alphabet : string :=
  "ABCDEFGHIJKLMNOPQRSTUVWXYZabcdefghijklmnopqrstuvwxyz0123456789+/".

Definition Z_of_byte (b : byte) : Z := Z.of_N (Byte.to_N b).

(** storing into an [unsigned char] *)
Definition byte_of_Z (z : Z) : byte :=
  match Byte.of_N (Z.to_N (z mod 256)) with
  | Some b => b
  | None => x00
  end.

(** [table_b2a_base64[n]] *)
Definition b2a (n : Z) : ascii :=
  match String.get (Z.to_nat n) alphabet with
  | Some c => c
  | None => "="%char
  end.

Fixpoint index_of (c : ascii) (s : string) (i : Z) : option Z :=
  match s with
  | EmptyString => None
  | String c' rest => if Ascii.eqb c c' then Some i else index_of c rest (i + 1)
  end.

(** [table_a2b_base64[c]], [None] for the characters the decoder skips *)
Definition a2b (c : ascii) : option Z := index_of c alphabet 0.

(** the four characters of a full three-byte group *)
Definition encode3 (a b c : Z) : string :=
  String (b2a (Z.shiftr a 2))
    (String (b2a (Z.lor (Z.shiftl (Z.land a 3) 4) (Z.shiftr b 4)))
       (String (b2a (Z.lor (Z.shiftl (Z.land b 15) 2) (Z.shiftr c 6)))
          (String (b2a (Z.land c 63)) EmptyString))).

(** [base64.b64encode(bs).decode()] *)
Fixpoint b64encode (bs : list byte) : string :=
  match bs with
  | [] => EmptyString
  | [a] =>
      let a := Z_of_byte a in
      String (b2a (Z.shiftr a 2))
        (String (b2a (Z.shiftl (Z.land a 3) 4)) "==")
  | [a; b] =>
      let a := Z_of_byte a in
      let b := Z_of_byte b in
      String (b2a (Z.shiftr a 2))
        (String (b2a (Z.lor (Z.shiftl (Z.land a 3) 4) (Z.shiftr b 4)))
           (String (b2a (Z.shiftl (Z.land b 15) 2)) "="))
  | a :: b :: c :: rest =>
      encode3 (Z_of_byte a) (Z_of_byte b) (Z_of_byte c) ++ b64encode rest
  end.

Definition emit (b : Z) (k : outcome (list byte)) : outcome (list byte) :=
  rest <- k ;; Returned (byte_of_Z b :: rest).

(** The loop of [binascii.a2b_base64] in its default, non-strict mode:
    characters outside the alphabet are skipped, a completed pad sequence
    ends the parse, and a group left open at the end is an error. *)
Fixpoint a2b_base64 (s : string) (quad_pos leftchar pads : Z) : outcome (list byte) :=
  match s with
  | EmptyString => if quad_pos =? 0 then Returned [] else Raised BinasciiError
  | String ch rest =>
      if Ascii.eqb ch "="
      then
        if (2 <=? quad_pos) && (4 <=? quad_pos + (pads + 1))
        then Returned []
        else a2b_base64 rest quad_pos leftchar
               (if 2 <=? quad_pos then pads + 1 else pads)
      else
        match a2b ch with
        | None => a2b_base64 rest quad_pos leftchar pads
        | Some this_ch =>
            match quad_pos with
            | 0 => a2b_base64 rest 1 this_ch 0
            | 1 => emit (Z.lor (Z.shiftl leftchar 2) (Z.shiftr this_ch 4))
                     (a2b_base64 rest 2 (Z.land this_ch 15) 0)
            | 2 => emit (Z.lor (Z.shiftl leftchar 4) (Z.shiftr this_ch 2))
                     (a2b_base64 rest 3 (Z.land this_ch 3) 0)
            | _ => emit (Z.lor (Z.shiftl leftchar 6) this_ch)
                     (a2b_base64 rest 0 0 0)
            end
        end
  end.

Fixpoint all_ascii (s : string) : bool :=
  match s with
  | EmptyString => true
  | String c rest => (N.ltb (N_of_ascii c) 128) && all_ascii rest
  end.

(** [base64.b64decode(x)] for a JSON value [x]: a [str] is first encoded as
    ASCII; anything that is not a [str] is a type error. *)
Definition b64decode (x : json) : outcome (list byte) :=
  match x with
  | JStr s =>
      if all_ascii s then a2b_base64 s 0 0 0 else Raised ValueError
  | _ => Raised TypeError
  end.

(** every byte, for exhaustive checks *)
Definition all_bytes : list byte :=
  map (fun n => byte_of_Z (Z.of_nat n)) (seq 0 256).

Definition sextet (v : Z) : bool := (0 <=? v) && (v <? 64).

(** the three-to-four regrouping, as checked on every pair of bytes *)
Definition second_sextet (a b : Z) : Z := Z.lor (Z.shiftl (Z.land a 3) 4) (Z.shiftr b 4).
Definition third_sextet (b c : Z) : Z := Z.lor (Z.shiftl (Z.land b 15) 2) (Z.shiftr c 6).

Definition check_first (x y : byte) : bool :=
  let a := Z_of_byte x in
  let b := Z_of_byte y in
  sextet (Z.shiftr a 2) && sextet (second_sextet a b)
  && Byte.eqb (byte_of_Z (Z.lor (Z.shiftl (Z.shiftr a 2) 2) (Z.shiftr (second_sextet a b) 4))) x
  && (Z.land (second_sextet a b) 15 =? Z.shiftr b 4).

Definition check_second (y z : byte) : bool :=
  let b := Z_of_byte y in
  let c := Z_of_byte z in
  sextet (third_sextet b c) && sextet (Z.land c 63)
  && Byte.eqb (byte_of_Z (Z.lor (Z.shiftl (Z.shiftr b 4) 4) (Z.shiftr (third_sextet b c) 2))) y
  && (Z.land (third_sextet b c) 3 =? Z.shiftr c 6)
  && Byte.eqb (byte_of_Z (Z.lor (Z.shiftl (Z.shiftr c 6) 6) (Z.land c 63))) z.

End Base64.

(** ** The HTTP exchange ([requests]) *)

Record request : Type := {
  req_url : string;
  req_headers : list (string * string);
  req_json : json;
  req_timeout : Z
}.

(** What the code reads of a [requests.Response]: [json_body] is the outcome
    of calling [response.json()], which raises on a body that is not JSON. *)
Record response : Type := {
  status_code : Z;
  text : string;
  json_body : outcome json
}.

(** [response.ok]: false exactly when [raise_for_status()] would raise,
    that is for a client (4xx) or server (5xx) error status. *)
Definition ok (r : response) : bool :=
  negb ((400 <=? status_code r) && (status_code r <? 600)).

Definition nl : string := String (ascii_of_nat 10) EmptyString.

(** truth value of an optional [int] argument ([None] or a number) *)
Definition given (n : option Z) : bool :=
  match n with
  | Some z => negb (z =? 0)
  | None => false
  end.

Definition has_key (k : string) (x : json) : bool :=
  match x with
  | JDict fields => match lookup k fields with Some _ => true | None => false end
  | _ => false
  end.

(** ** [prompt_tester.py] *)

Module PromptTester.

(** The dict [generate_image] returns: [{"success": True, "image_base64":
    ..., "mime_type": ...}] or [{"success": False, "error": ...}]. *)
Inductive result : Type :=
| Success (image_base64 mime_type : json)
| Failure (error : string).

Definition no_image : result := Failure "No image in response".

(** [message = data.get("choices", [{}])[0].get("message", {})] *)
Definition first_message (data : json) : outcome json :=
  choices <- py_get data "choices" (JList [JDict []]) ;;
  first <- py_first choices ;;
  py_get first "message" (JDict []).

(** The [image_url] branch on [img = images[0]].  [None] stands for
    control reaching the statement after the branch. *)
Definition data_uri_candidate (img : json) : outcome (option result) :=
  has_image_url <- py_in "image_url" img ;;
  if has_image_url then
    image_url <- py_item img "image_url" ;;
    has_url <- py_in "url" image_url ;;
    if has_url then
      url <- py_item image_url "url" ;;
      u <- py_str_method url ;;
      if String.prefix "data:" u then
        let parts := PyStr.split1 "," u in
        if (Z.of_nat (List.length parts) =? 2) then
          header <- list_item parts 0 ;;
          after_colon <- list_item (PyStr.split ":" header) 1 ;;
          mime <- list_item (PyStr.split ";" after_colon) 0 ;;
          payload <- list_item parts 1 ;;
          Returned (Some (Success (JStr payload) (JStr mime)))
        else Returned None
      else Returned None
    else Returned None
  else Returned None.

(** The [inline_data] and bare [data] branches, written twice in the
    source: on [img] and on each matching [item] of the content list. *)
Definition inline_or_bare (x : json) : outcome (option result) :=
  has_inline <- py_in "inline_data" x ;;
  if has_inline then
    inline <- py_item x "inline_data" ;;
    d <- py_get inline "data" (JStr EmptyString) ;;
    inline' <- py_item x "inline_data" ;;
    m <- py_get inline' "mime_type" (JStr "image/png") ;;
    Returned (Some (Success d m))
  else
    has_data <- py_in "data" x ;;
    if has_data then
      d <- py_item x "data" ;;
      m <- py_get x "mime_type" (JStr "image/png") ;;
      Returned (Some (Success d m))
    else Returned None.

(** [images = message.get("images", [])] and the block under
    [if images and len(images) > 0]. *)
Definition images_step (message : json) : outcome (option result) :=
  images <- py_get message "images" (JList []) ;;
  if py_truthy images then
    n <- py_len images ;;
    if 0 <? n then
      img <- py_first images ;;
      r <- data_uri_candidate img ;;
      match r with
      | Some res => Returned (Some res)
      | None => inline_or_bare img
      end
    else Returned None
  else Returned None.

Definition image_types : list string := ["output_image"; "image"; "image_url"].

(** [item.get("type") in ["output_image", "image", "image_url"]] on the
    value already fetched. *)
Definition type_matches (ty : json) : bool :=
  existsb (fun t => is_str t ty) image_types.

(** [for item in content: ...] *)
Fixpoint scan_content (items : list json) : outcome (option result) :=
  match items with
  | [] => Returned None
  | item :: rest =>
      ty <- py_get item "type" JNull ;;
      if type_matches ty then
        r <- inline_or_bare item ;;
        match r with
        | Some res => Returned (Some res)
        | None => scan_content rest
        end
      else scan_content rest
  end.

(** [if isinstance(content, list): ...] *)
Definition content_step (content : json) : outcome (option result) :=
  match content with
  | JList items => scan_content items
  | _ => Returned None
  end.

(** [if isinstance(content, str) and content: ...], then the final return. *)
Definition text_step (content : json) : result :=
  match content with
  | JStr s =>
      if PyStr.nonempty s
      then Failure ("Model returned text instead of image: " ++ PyStr.take 200 s)
      else no_image
  | _ => no_image
  end.

(** Lines 224-251: the content array, the text check and the final return. *)
Definition content_and_text (message : json) : outcome result :=
  content <- py_get message "content" (JStr EmptyString) ;;
  r <- content_step content ;;
  match r with
  | Some res => Returned res
  | None => Returned (text_step content)
  end.

(** Lines 191-251: everything after [data = response.json()] and the debug
    prints. *)
Definition extract (data : json) : outcome result :=
  message <- first_message data ;;
  r <- images_step message ;;
  match r with
  | Some res => Returned res
  | None => content_and_text message
  end.

Definition OPENROUTER_API_URL : string := "https://openrouter.ai/api/v1/chat/completions".
Definition CARD_WIDTH : Z := 1728.
Definition CARD_HEIGHT : Z := 2304.
Definition SCENE_WIDTH : Z := 2560.
Definition SCENE_HEIGHT : Z := 1440.

(** [dimension_instruction], empty unless [width and height] *)
Definition dimension_instruction (width height : option Z) : string :=
  if given width && given height then
    match width, height with
    | Some w, Some h =>
        let orientation :=
          if h >? w then "portrait (taller than wide)"
          else "landscape (wider than tall)" in
        "OUTPUT IMAGE SPECIFICATIONS:" ++ nl
        ++ "- Exact dimensions: " ++ PyStr.of_int w ++ "x" ++ PyStr.of_int h
        ++ " pixels" ++ nl
        ++ "- Aspect ratio: " ++ PyStr.of_int w ++ ":" ++ PyStr.of_int h ++ nl
        ++ "- Orientation: " ++ orientation ++ nl
        ++ "- DO NOT generate a square image" ++ nl ++ nl
    | _, _ => EmptyString
    end
  else EmptyString.

(** the two entries added under [if width and height] *)
Definition dimension_fields (width height : option Z) : list (string * json) :=
  if given width && given height then
    match width, height with
    | Some w, Some h =>
        let divisor := Z.gcd w h in
        let aspect_ratio :=
          PyStr.of_int (w / divisor) ++ ":" ++ PyStr.of_int (h / divisor) in
        [ ("image_size", JDict [("width", JInt w); ("height", JInt h)]);
          ("image_config", JDict [("aspect_ratio", JStr aspect_ratio)]) ]
    | _, _ => []
    end
  else [].

(** the request body *)
Definition payload (model image_base64 mime_type prompt : string)
    (width height : option Z) : json :=
  let full_prompt := dimension_instruction width height ++ prompt in
  JDict
    ([ ("model", JStr model);
       ("messages",
        JList
          [ JDict
              [ ("role", JStr "user");
                ("content",
                 JList
                   [ JDict [("type", JStr "text"); ("text", JStr full_prompt)];
                     JDict
                       [ ("type", JStr "image_url");
                         ("image_url",
                          JDict
                            [("url",
                              JStr ("data:" ++ mime_type ++ ";base64," ++ image_base64))])
                       ] ])
              ] ]);
       ("max_tokens", JInt 4096) ]
     ++ dimension_fields width height).

Definition headers (api_key : string) : list (string * string) :=
  [ ("Content-Type", "application/json");
    ("Authorization", "Bearer " ++ api_key);
    ("HTTP-Referer", "https://sprite-forge.app");
    ("X-Title", "SPRITE FORGE Prompt Tester") ].

(** the request handed to [requests.post] *)
Definition request_of (api_key model image_base64 mime_type prompt : string)
    (timeout : Z) (width height : option Z) : request :=
  {| req_url := OPENROUTER_API_URL;
     req_headers := headers api_key;
     req_json := payload model image_base64 mime_type prompt width height;
     req_timeout := timeout |}.

(** [x.keys()] as far as it can fail *)
Definition py_keys (x : json) : outcome unit :=
  match x with
  | JDict _ => Returned tt
  | _ => Raised AttributeError
  end.

(** The [if debug:] block after [response.json()]: what it prints is not
    modelled, what it evaluates is. *)
Definition debug_response (data : json) : outcome unit :=
  _ <- py_keys data ;;
  has_choices <- py_in "choices" data ;;
  if has_choices then
    choices <- py_item data "choices" ;;
    n <- py_len choices ;;
    if 0 <? n then
      first <- py_first choices ;;
      msg <- py_get first "message" (JDict []) ;;
      _ <- py_keys msg ;;
      has_images <- py_in "images" msg ;;
      if has_images then
        images <- py_item msg "images" ;;
        _ <- py_len images ;;
        Returned tt
      else Returned tt
    else Returned tt
  else Returned tt.

(** [generate_image], with [requests.post] as the parameter [post]. *)
Definition generate_image (post : request -> outcome response)
    (api_key model image_base64 mime_type prompt : string)
    (timeout : Z) (width height : option Z) (debug : bool) : outcome result :=
  response <-
    post (request_of api_key model image_base64 mime_type prompt timeout width height) ;;
  if negb (ok response) then
    Returned
      (Failure
         ("HTTP " ++ PyStr.of_int (status_code response) ++ ": "
          ++ PyStr.take 200 (text response)))
  else
    data <- json_body response ;;
    _ <- (if debug then debug_response data else Returned tt) ;;
    extract data.

(** Files written so far, the latest first. *)
Definition filesystem : Type := list (string * list byte).

Fixpoint read_file (path : string) (fs : filesystem) : option (list byte) :=
  match fs with
  | [] => None
  | (p, bytes) :: rest => if String.eqb path p then Some bytes else read_file path rest
  end.

(** [save_image]: decode, then write the bytes to [output_path]. *)
Definition save_image (base64_data : json) (output_path : string)
    (fs : filesystem) : outcome filesystem :=
  image_bytes <- Base64.b64decode base64_data ;;
  Returned ((output_path, image_bytes) :: fs).

(** *** Shapes of a response, for the statements below *)

(** [image_url.url] of the first entry of [images] in the first completion's
    message is the string [u]. *)
Definition first_image (data img : json) : Prop :=
  exists fields choice rest_choices msg rest_images,
    data = JDict fields /\
    lookup "choices" fields = Some (JList (JDict choice :: rest_choices)) /\
    lookup "message" choice = Some (JDict msg) /\
    lookup "images" msg = Some (JList (img :: rest_images)).

Definition image_url_of (img : json) (u : string) : Prop :=
  exists fields image_url,
    img = JDict fields /\
    lookup "image_url" fields = Some (JDict image_url) /\
    lookup "url" image_url = Some (JStr u).

(** [x] is an element the extractor may build a result from: the first entry
    of the message's [images] list or an element of its [content] list *)
Definition candidate_of (msg : list (string * json)) (x : json) : Prop :=
  (exists rest, lookup "images" msg = Some (JList (x :: rest)))
  \/ (exists items, lookup "content" msg = Some (JList items) /\ In x items).

(** the content field of the first completion's message *)
Definition content_of (data content : json) : Prop :=
  exists message fields,
    first_message data = Returned message /\
    message = JDict fields /\
    lookup "content" fields = Some content.

(** the value a field is allowed to have when present *)
Definition field_is (p : json -> bool) (k : string) (fields : list (string * json)) : bool :=
  match lookup k fields with
  | Some v => p v
  | None => true
  end.

Definition is_dict (v : json) : bool :=
  match v with JDict _ => true | _ => false end.

Definition is_string (v : json) : bool :=
  match v with JStr _ => true | _ => false end.

(** an entry of [images]: an object whose [image_url], if any, is an object
    with a string [url], if any, and whose [inline_data], if any, is an
    object *)
Definition image_entry_ok (img : json) : bool :=
  match img with
  | JDict fields =>
      field_is (fun iu =>
                  match iu with
                  | JDict iu_fields => field_is is_string "url" iu_fields
                  | _ => false
                  end) "image_url" fields
      && field_is is_dict "inline_data" fields
  | _ => false
  end.

(** an element of a content list: an object whose [inline_data], if any, is
    an object *)
Definition content_item_ok (item : json) : bool :=
  match item with
  | JDict fields => field_is is_dict "inline_data" fields
  | _ => false
  end.

Definition images_ok (images : json) : bool :=
  negb (py_truthy images)
  || match images with
     | JList (img :: _) => image_entry_ok img
     | _ => false
     end.

Definition content_ok (content : json) : bool :=
  match content with
  | JList items => forallb content_item_ok items
  | _ => true
  end.

Definition message_ok (message : json) : bool :=
  match message with
  | JDict fields => field_is images_ok "images" fields && field_is content_ok "content" fields
  | _ => false
  end.

Definition choices_ok (choices : json) : bool :=
  match choices with
  | JList (JDict choice :: _) => field_is message_ok "message" choice
  | _ => false
  end.

(** A response of the expected schema: every field the extractor reads is
    either absent or of the JSON type the code expects. *)
Definition response_ok (data : json) : bool :=
  match data with
  | JDict fields => field_is choices_ok "choices" fields
  | _ => false
  end.

(** a content element the scan returns from *)
Definition carries_image (item : json) : bool :=
  match item with
  | JDict fields =>
      type_matches (with_default (lookup "type" fields) JNull)
      && (has_key "inline_data" item || has_key "data" item)
  | _ => false
  end.

(** the [Success] built from an element with [inline_data] or [data] *)
Definition success_of (x : json) : result :=
  match x with
  | JDict fields =>
      match lookup "inline_data" fields with
      | Some (JDict inline) =>
          Success (with_default (lookup "data" inline) (JStr EmptyString))
                  (with_default (lookup "mime_type" inline) (JStr "image/png"))
      | _ =>
          Success (with_default (lookup "data" fields) JNull)
                  (with_default (lookup "mime_type" fields) (JStr "image/png"))
      end
  | _ => no_image
  end.

(** the media-type segment of a data URI: between the first colon and the
    next colon or semicolon of the part before the first comma *)
Definition header_mime (u : string) : string :=
  match PyStr.split1 "," u with
  | header :: _ =>
      match PyStr.split ":" header with
      | _ :: after_colon :: _ =>
          match PyStr.split ";" after_colon with
          | mime :: _ => mime
          | [] => EmptyString
          end
      | _ => EmptyString
      end
  | [] => EmptyString
  end.

(** a content element the scan passes over: an object that is not of a
    matching type, or has neither field *)
Definition skipped (item : json) : bool := is_dict item && negb (carries_image item).

(** a content field from which neither the scan nor the text check returns *)
Definition content_matches_nothing (content : json) : bool :=
  match content with
  | JList items => forallb skipped items
  | JStr s => negb (PyStr.nonempty s)
  | _ => true
  end.

Fixpoint has_char (c : ascii) (s : string) : bool :=
  match s with
  | EmptyString => false
  | String c' rest => Ascii.eqb c' c || has_char c rest
  end.

(** a media type that the data-URI syntax can carry as it is *)
Definition plain_mime (m : string) : bool :=
  negb (has_char "," m) && negb (has_char ":" m) && negb (has_char ";" m).

Definition data_uri (mime : string) (bs : list byte) : string :=
  "data:" ++ mime ++ ";base64," ++ Base64.b64encode bs.

Definition standard_image_types : list string :=
  [ "image/png"; "image/jpeg"; "image/gif"; "image/webp"; "image/bmp";
    "image/tiff"; "image/svg+xml"; "image/avif"; "image/heic"; "image/heif";
    "image/apng"; "image/x-icon"; "image/vnd.microsoft.icon" ].

(** the smallest response whose first image entry holds the URL [u] *)
Definition response_with_url (u : string) : json :=
  JDict
    [("choices",
      JList
        [JDict
           [("message",
             JDict [("images", JList [JDict [("image_url", JDict [("url", JStr u)])]])])]])].

(** *** The environment file, the photo and the interactive loop *)

(** A [dict] from strings to strings, in insertion order. *)
Definition env_dict : Type := list (string * string).

(** [d[k] = v] *)
Fixpoint dict_set (k v : string) (d : env_dict) : env_dict :=
  match d with
  | [] => [(k, v)]
  | (k', v') :: rest =>
      if String.eqb k k' then (k, v) :: rest else (k', v') :: dict_set k v rest
  end.

(** [d.get(k)] *)
Fixpoint dict_get (k : string) (d : env_dict) : option string :=
  match d with
  | [] => None
  | (k', v) :: rest => if String.eqb k k' then Some v else dict_get k rest
  end.

(** The body of the [for line in f] loop of [load_env]; unpacking the split
    into [key, value] raises unless there are two parts. *)
Definition env_line (env_vars : env_dict) (line : string) : outcome env_dict :=
  let line := PyStr.strip line in
  if PyStr.nonempty line && negb (String.prefix "#" line) && PyStr.contains "=" line
  then
    match PyStr.split1 "=" line with
    | [key; value] => Returned (dict_set (PyStr.strip key) (PyStr.strip value) env_vars)
    | _ => Raised ValueError
    end
  else Returned env_vars.

Fixpoint env_lines (env_vars : env_dict) (lines : list string) : outcome env_dict :=
  match lines with
  | [] => Returned env_vars
  | line :: rest =>
      env_vars' <- env_line env_vars line ;;
      env_lines env_vars' rest
  end.

(** no key and no value has whitespace at either end *)
Definition all_trimmed (d : env_dict) : Prop :=
  Forall (fun kv => PyStr.trimmed (fst kv) /\ PyStr.trimmed (snd kv)) d.

(** a line that sets nothing: blank, a comment, or without an equals sign *)
Definition ignored_line (line : string) : bool :=
  negb (PyStr.nonempty (PyStr.strip line))
  || String.prefix "#" (PyStr.strip line)
  || negb (PyStr.contains "=" line).

(** [load_env], on the lines of [.env.local], or [None] when the file does
    not exist. *)
Definition load_env (file : option (list string)) : outcome env_dict :=
  match file with
  | Some lines => env_lines [] lines
  | None => Returned []
  end.

(** [load_image], on the bytes of the file ([None] when it does not exist,
    which raises [FileNotFoundError]) and on what [mimetypes.guess_type]
    answers for its path.  The result is [(base64_data, mime_type)]. *)
Definition load_image (file : option (list byte)) (guessed : option string)
  : option (string * string) :=
  match file with
  | None => None
  | Some bytes =>
      let mime_type :=
        match guessed with
        | Some m =>
            if negb (PyStr.nonempty m) || negb (String.prefix "image/" m)
            then "image/jpeg" else m
        | None => "image/jpeg"
        end in
      Some (Base64.b64encode bytes, mime_type)
  end.

(** What the interactive loop works on: the lines still to be typed, the
    files written and the number of times the clock was read.  What is
    printed is not part of it. *)
Record world : Type := {
  stdin : list string;
  files : filesystem;
  clock : nat
}.

(** The [while True] loop of [get_multiline_input]: [input()] takes the next
    line, and raises [EOFError], caught outside the loop, when none is
    left. *)
Fixpoint input_loop (input : list string) (lines : list string) (empty_count : Z)
  : list string * list string :=
  match input with
  | [] => (lines, [])
  | line :: rest =>
      if String.eqb line EmptyString then
        let empty_count := empty_count + 1 in
        if empty_count >=? 1 then (lines, rest)
        else input_loop rest (lines ++ [line]) empty_count
      else input_loop rest (lines ++ [line]) 0
  end.

(** [get_multiline_input]: the text read and the world after reading. *)
Definition get_multiline_input (w : world) : string * world :=
  let (lines, rest) := input_loop (stdin w) [] 0 in
  (PyStr.strip (PyStr.join nl lines),
   {| stdin := rest; files := files w; clock := clock w |}).

(** how one pass through the body of the loop of [run_interactive] ends *)
Inductive control : Type :=
| Continue (w : world) (current_mode : string)
| Break (w : world)
| Crash (e : pyexc) (w : world).

(** how a run of [run_interactive] ends *)
Inductive session : Type :=
| Finished (w : world)
| Crashed (e : pyexc) (w : world).

Inductive saved : Type :=
| Kept (w : world)
| Failed (e : pyexc) (w : world).

(** [cmd in ["quit", "exit", "q"]] *)
Definition is_quit (cmd : string) : bool :=
  existsb (String.eqb cmd) ["quit"; "exit"; "q"].

Section Interactive.

Variable post : request -> outcome response.
(** [datetime.now().strftime(...)] at the n-th reading of the clock *)
Variable now : nat -> string.
Variables api_key model image_base64 mime_type output_dir : string.
Variable timeout : Z.
Variable debug : bool.

(** The block written four times in [run_interactive]: call
    [generate_image] with the dimensions of the kind, and on success save
    the image as [output_dir/<kind>_<timestamp>.png]. *)
Definition generate_to_file (kind prompt : string) (width height : Z)
    (timestamp : string) (w : world) : saved :=
  match generate_image post api_key model image_base64 mime_type prompt timeout
          (Some width) (Some height) debug with
  | Raised e => Failed e w
  | Returned (Success image _) =>
      match save_image image (output_dir ++ "/" ++ kind ++ "_" ++ timestamp ++ ".png")
              (files w) with
      | Returned files' =>
          Kept {| stdin := stdin w; files := files'; clock := clock w |}
      | Raised e => Failed e w
      end
  | Returned (Failure _) => Kept w
  end.

Definition read_clock (w : world) : string * world :=
  (now (clock w), {| stdin := stdin w; files := files w; clock := S (clock w) |}).

(** the body of [while True] in [run_interactive] *)
Definition iteration (w : world) (current_mode : string) : control :=
  if String.eqb current_mode "both" then
    let (card_prompt, w) := get_multiline_input w in
    if negb (PyStr.nonempty card_prompt) then Continue w current_mode
    else
      let cmd := PyStr.strip (PyStr.lower card_prompt) in
      if is_quit cmd then Break w
      else if String.eqb cmd "card" then Continue w "card"
      else if String.eqb cmd "scene" then Continue w "scene"
      else
        let (scene_prompt, w) := get_multiline_input w in
        if negb (PyStr.nonempty scene_prompt) then Continue w current_mode
        else
          let cmd := PyStr.strip (PyStr.lower scene_prompt) in
          if is_quit cmd then Break w
          else if String.eqb cmd "card" then Continue w "card"
          else if String.eqb cmd "scene" then Continue w "scene"
          else
            let (timestamp, w) := read_clock w in
            match generate_to_file "card" card_prompt CARD_WIDTH CARD_HEIGHT timestamp w with
            | Failed e w => Crash e w
            | Kept w =>
                match generate_to_file "scene" scene_prompt SCENE_WIDTH SCENE_HEIGHT
                        timestamp w with
                | Failed e w => Crash e w
                | Kept w => Continue w current_mode
                end
            end
  else
    let (prompt, w) := get_multiline_input w in
    if negb (PyStr.nonempty prompt) then Continue w current_mode
    else
      let cmd := PyStr.strip (PyStr.lower prompt) in
      if is_quit cmd then Break w
      else if String.eqb cmd "card" then Continue w "card"
      else if String.eqb cmd "scene" then Continue w "scene"
      else if String.eqb cmd "both" then Continue w "both"
      else
        let (timestamp, w) := read_clock w in
        if String.eqb current_mode "card" then
          match generate_to_file "card" prompt CARD_WIDTH CARD_HEIGHT timestamp w with
          | Failed e w => Crash e w
          | Kept w => Continue w current_mode
          end
        else if String.eqb current_mode "scene" then
          match generate_to_file "scene" prompt SCENE_WIDTH SCENE_HEIGHT timestamp w with
          | Failed e w => Crash e w
          | Kept w => Continue w current_mode
          end
        else Continue w current_mode.

(** [run_interactive], for at most [fuel] passes through the loop: [None]
    when the loop is still running after them. *)
Fixpoint run_interactive (fuel : nat) (w : world) (mode : string) : option session :=
  match fuel with
  | O => None
  | S fuel' =>
      match iteration w mode with
      | Continue w' mode' => run_interactive fuel' w' mode'
      | Break w' => Some (Finished w')
      | Crash e w' => Some (Crashed e w')
      end
  end.

End Interactive.

(** the lines typed before the first empty one, and those after it *)
Fixpoint before_blank (input : list string) : list string :=
  match input with
  | [] => []
  | line :: rest =>
      if String.eqb line EmptyString then [] else line :: before_blank rest
  end.

Fixpoint after_blank (input : list string) : list string :=
  match input with
  | [] => []
  | line :: rest =>
      if String.eqb line EmptyString then rest else after_blank rest
  end.

(** a text the loop takes as a command in card or scene mode *)
Definition is_command (text : string) : bool :=
  let cmd := PyStr.strip (PyStr.lower text) in
  is_quit cmd || String.eqb cmd "card" || String.eqb cmd "scene" || String.eqb cmd "both".

(** a text the loop takes as a command in both mode, where [both] is not
    one *)
Definition is_command_in_both (text : string) : bool :=
  let cmd := PyStr.strip (PyStr.lower text) in
  is_quit cmd || String.eqb cmd "card" || String.eqb cmd "scene".

(** a path of the form [output_dir/card_...] or [output_dir/scene_...] *)
Definition session_path (output_dir path : string) : bool :=
  String.prefix (output_dir ++ "/card_") path
  || String.prefix (output_dir ++ "/scene_") path.

(** the server answers the request [req] with a JSON body whose first image
    is the bytes [bs], as a data URI of media type [m] *)
Definition serves (post : request -> outcome response) (req : request)
    (m : string) (bs : list byte) : Prop :=
  exists resp data img,
    post req = Returned resp
    /\ ok resp = true
    /\ json_body resp = Returned data
    /\ first_image data img
    /\ image_url_of img (data_uri m bs)
    /\ In m standard_image_types.

(** files outside the two families of names read the same in both worlds *)
Definition same_elsewhere (output_dir : string) (w w' : world) : Prop :=
  forall path, session_path output_dir path = false ->
               read_file path (files w') = read_file path (files w).

(** for the examples: a server that answers every request with the same
    two-byte image, a server whose image data is a number, and a clock that
    stands still *)
Definition jpeg_server : request -> outcome response :=
  fun _ =>
    Returned {| status_code := 200; text := EmptyString;
                json_body := Returned (response_with_url (data_uri "image/jpeg" [xff; xd8])) |}.

Definition number_server : request -> outcome response :=
  fun _ =>
    Returned
      {| status_code := 200; text := EmptyString;
         json_body :=
           Returned
             (JDict [("choices",
                      JList [JDict [("message",
                                     JDict [("images",
                                             JList [JDict [("data", JInt 7)]])])]])]) |}.

Definition stamp : nat -> string := fun _ => "20260101_120000".

(** the mode [main] hands to [run_interactive], from the [--card] and
    [--scene] flags *)
Definition mode_of_flags (card scene : bool) : string :=
  if card && scene then "both"
  else if card then "card"
  else if scene then "scene"
  else "both".

(** one of the three modes the loop has a branch for *)
Definition valid_mode (mode : string) : Prop :=
  mode = "both" \/ mode = "card" \/ mode = "scene".

(** the world a run ends in *)
Definition final_world (s : session) : world :=
  match s with
  | Finished w => w
  | Crashed _ w => w
  end.

End PromptTester.

(** ** [verify_dimensions.py] *)

Module VerifyDimensions.

(** [a // b] on [int]s *)
Definition floordiv (a b : Z) : outcome Z :=
  if b =? 0 then Raised ZeroDivisionError else Returned (a / b).

(** The request body of [generate_image(api_key, model, image_b64, mime,
    prompt, width, height)]: both dimensions are required arguments. *)
Definition payload (model image_b64 mime prompt : string) (width height : Z) : outcome json :=
  let divisor := Z.gcd width height in
  w <- floordiv width divisor ;;
  h <- floordiv height divisor ;;
  let aspect_ratio := PyStr.of_int w ++ ":" ++ PyStr.of_int h in
  Returned
    (JDict
       [ ("model", JStr model);
         ("messages",
          JList
            [ JDict
                [ ("role", JStr "user");
                  ("content",
                   JList
                     [ JDict [("type", JStr "text"); ("text", JStr prompt)];
                       JDict
                         [ ("type", JStr "image_url");
                           ("image_url",
                            JDict
                              [("url", JStr ("data:" ++ mime ++ ";base64," ++ image_b64))])
                         ] ])
                ] ]);
         ("max_tokens", JInt 4096);
         ("image_size", JDict [("width", JInt width); ("height", JInt height)]);
         ("image_config", JDict [("aspect_ratio", JStr aspect_ratio)]) ]).

Definition CARD_WIDTH : Z := 1728.
Definition CARD_HEIGHT : Z := 2304.
Definition SCENE_WIDTH : Z := 2560.
Definition SCENE_HEIGHT : Z := 1440.
Definition OPENROUTER_API_URL : string := "https://openrouter.ai/api/v1/chat/completions".

(** what calling a function of the script comes to: a value, an exception,
    or [sys.exit(code)] *)
Inductive run (A : Type) : Type :=
| Value (a : A)
| Exception (e : pyexc)
| Exit (code : Z).
Arguments Value {A} a.
Arguments Exception {A} e.
Arguments Exit {A} code.

Definition headers (api_key : string) : list (string * string) :=
  [ ("Content-Type", "application/json");
    ("Authorization", "Bearer " ++ api_key);
    ("HTTP-Referer", "https://sprite-forge.app");
    ("X-Title", "SPRITE FORGE Dimension Test") ].

(** the guardrail: ["image_size" in payload.get("image_config", {})] *)
Definition conflicting_preset (sent : json) : outcome bool :=
  image_config <- py_get sent "image_config" (JDict []) ;;
  py_in "image_size" image_config.

(** Lines 98-106: the payload of the first image, or [None]. *)
Definition first_image_payload (data : json) : outcome (option string) :=
  choices <- py_get data "choices" (JList [JDict []]) ;;
  first <- py_first choices ;;
  msg <- py_get first "message" (JDict []) ;;
  imgs <- py_get msg "images" (JList []) ;;
  if py_truthy imgs then
    img <- py_first imgs ;;
    has_image_url <- py_in "image_url" img ;;
    if has_image_url then
      image_url <- py_item img "image_url" ;;
      url <- py_item image_url "url" ;;
      u <- py_str_method url ;;
      if String.prefix "data:" u then
        payload <- list_item (PyStr.split1 "," u) 1 ;;
        Returned (Some payload)
      else Returned None
    else Returned None
  else Returned None.

(** [generate_image] of this script, with [requests.post] as [post]; the
    [requests] library is taken to be installed. *)
Definition generate_image (post : request -> outcome response)
    (api_key model image_b64 mime prompt : string) (width height : Z)
  : run (option string) :=
  match payload model image_b64 mime prompt width height with
  | Raised e => Exception e
  | Returned sent =>
      match conflicting_preset sent with
      | Raised e => Exception e
      | Returned true => Exit 1
      | Returned false =>
          match
            (response <-
               post {| req_url := OPENROUTER_API_URL;
                       req_headers := headers api_key;
                       req_json := sent;
                       req_timeout := 180 |} ;;
             if negb (ok response) then Returned None
             else
               data <- json_body response ;;
               first_image_payload data)
          with
          | Returned r => Value r
          | Raised e => Exception e
          end
      end
  end.

(** a row of [results]: name, file (or [None]), expected width and height *)
Definition row : Type := string * option string * Z * Z.

(** The [for name, filepath, exp_w, exp_h in results] loop of [run_test],
    with [get_image_dimensions] as a parameter; the value is [all_pass]. *)
Fixpoint check_rows (get_image_dimensions : string -> outcome (Z * Z))
    (results : list row) (all_pass : bool) : outcome bool :=
  match results with
  | [] => Returned all_pass
  | (_, filepath, exp_w, exp_h) :: rest =>
      match filepath with
      | None => check_rows get_image_dimensions rest false
      | Some path =>
          dims <- get_image_dimensions path ;;
          let (actual_w, actual_h) := dims in
          let all_pass :=
            if (actual_w =? exp_w) && (actual_h =? exp_h) then all_pass else false in
          let all_pass :=
            if (actual_w =? actual_h) && negb (exp_w =? exp_h) then false else all_pass in
          check_rows get_image_dimensions rest all_pass
      end
  end.

(** Lines 198-238 of [run_test]: the exit code for the rows collected. *)
Definition verdict (get_image_dimensions : string -> outcome (Z * Z))
    (results : list row) : outcome Z :=
  all_pass <- check_rows get_image_dimensions results true ;;
  Returned (if all_pass then 0 else 1).

(** a row with a file whose measured size is the expected one *)
Definition row_passes (get_image_dimensions : string -> outcome (Z * Z)) (r : row) : Prop :=
  match r with
  | (_, Some path, exp_w, exp_h) => get_image_dimensions path = Returned (exp_w, exp_h)
  | (_, None, _, _) => False
  end.

(** the rows of [--quick] mode, from the two sorted listings *)
Definition quick_rows (card_files scene_files : list string) : list row :=
  match card_files with
  | first :: _ => [("CARD", Some first, CARD_WIDTH, CARD_HEIGHT)]
  | [] => []
  end
  ++
  match scene_files with
  | first :: _ => [("SCENE", Some first, SCENE_WIDTH, SCENE_HEIGHT)]
  | [] => []
  end.

End VerifyDimensions.

(** * Facts *)

(** ** Base64: decoding an encoding gives the bytes back *)

Section Base64Facts.
Import Base64.

Lemma all_bytes_complete (b : byte) : In b all_bytes.
Proof.
  assert (H : existsb (Byte.eqb b) all_bytes = true) by (destruct b; vm_compute; reflexivity).
  apply existsb_exists in H. destruct H as [b' [Hin Heq]].
  apply Byte.byte_dec_bl in Heq. now subst.
Qed.

Lemma for_all_bytes (P : byte -> bool) :
  forallb P all_bytes = true -> forall b, P b = true.
Proof.
  intros H b. rewrite forallb_forall in H. apply H, all_bytes_complete.
Qed.

Lemma for_all_byte_pairs (P : byte -> byte -> bool) :
  forallb (fun a => forallb (P a) all_bytes) all_bytes = true ->
  forall a b, P a b = true.
Proof.
  intros H a b.
  apply (for_all_bytes (P a)).
  apply (for_all_bytes (fun a => forallb (P a) all_bytes) H).
Qed.

Lemma alphabet_sextet (v : Z) :
  sextet v = true ->
  a2b (b2a v) = Some v /\ Ascii.eqb (b2a v) "=" = false
  /\ N.ltb (N_of_ascii (b2a v)) 128 = true.
Proof.
  unfold sextet. intros H.
  apply andb_true_iff in H. destruct H as [H0 H1].
  apply Z.leb_le in H0. apply Z.ltb_lt in H1.
  assert (Hin : In v (map Z.of_nat (seq 0 64))).
  { apply in_map_iff. exists (Z.to_nat v). split; [lia|]. apply in_seq. lia. }
  revert Hin.
  generalize v.
  apply Forall_forall.
  vm_compute. repeat constructor.
Qed.

Lemma check_first_all (x y : byte) : check_first x y = true.
Proof. apply for_all_byte_pairs. vm_compute. reflexivity. Qed.

Lemma check_second_all (y z : byte) : check_second y z = true.
Proof. apply for_all_byte_pairs. vm_compute. reflexivity. Qed.

Lemma first_facts (x y : byte) :
  let a := Z_of_byte x in
  let b := Z_of_byte y in
  sextet (Z.shiftr a 2) = true /\ sextet (second_sextet a b) = true
  /\ byte_of_Z (Z.lor (Z.shiftl (Z.shiftr a 2) 2) (Z.shiftr (second_sextet a b) 4)) = x
  /\ Z.land (second_sextet a b) 15 = Z.shiftr b 4.
Proof.
  intros a b. pose proof (check_first_all x y) as H. unfold check_first in H.
  fold a b in H.
  apply andb_true_iff in H; destruct H as [H H4].
  apply andb_true_iff in H; destruct H as [H H3].
  apply andb_true_iff in H; destruct H as [H1 H2].
  repeat split; auto.
  - now apply Byte.byte_dec_bl.
  - now apply Z.eqb_eq.
Qed.

Lemma second_facts (y z : byte) :
  let b := Z_of_byte y in
  let c := Z_of_byte z in
  sextet (third_sextet b c) = true /\ sextet (Z.land c 63) = true
  /\ byte_of_Z (Z.lor (Z.shiftl (Z.shiftr b 4) 4) (Z.shiftr (third_sextet b c) 2)) = y
  /\ Z.land (third_sextet b c) 3 = Z.shiftr c 6
  /\ byte_of_Z (Z.lor (Z.shiftl (Z.shiftr c 6) 6) (Z.land c 63)) = z.
Proof.
  intros b c. pose proof (check_second_all y z) as H. unfold check_second in H.
  fold b c in H.
  apply andb_true_iff in H; destruct H as [H H5].
  apply andb_true_iff in H; destruct H as [H H4].
  apply andb_true_iff in H; destruct H as [H H3].
  apply andb_true_iff in H; destruct H as [H1 H2].
  repeat split; auto.
  - now apply Byte.byte_dec_bl.
  - now apply Z.eqb_eq.
  - now apply Byte.byte_dec_bl.
Qed.

(** one step of the decoder on an alphabet character *)
Lemma a2b_base64_sextet (v : Z) (rest : string) (quad_pos leftchar pads : Z) :
  sextet v = true ->
  a2b_base64 (String (b2a v) rest) quad_pos leftchar pads =
  match quad_pos with
  | 0 => a2b_base64 rest 1 v 0
  | 1 => emit (Z.lor (Z.shiftl leftchar 2) (Z.shiftr v 4))
           (a2b_base64 rest 2 (Z.land v 15) 0)
  | 2 => emit (Z.lor (Z.shiftl leftchar 4) (Z.shiftr v 2))
           (a2b_base64 rest 3 (Z.land v 3) 0)
  | _ => emit (Z.lor (Z.shiftl leftchar 6) v) (a2b_base64 rest 0 0 0)
  end.
Proof.
  intros Hv. destruct (alphabet_sextet v Hv) as [Ha [Hpad _]].
  change (a2b_base64 (String (b2a v) rest) quad_pos leftchar pads)
    with (if Ascii.eqb (b2a v) "="
          then if (2 <=? quad_pos) && (4 <=? quad_pos + (pads + 1))
               then Returned []
               else a2b_base64 rest quad_pos leftchar
                      (if 2 <=? quad_pos then pads + 1 else pads)
          else match a2b (b2a v) with
               | None => a2b_base64 rest quad_pos leftchar pads
               | Some this_ch =>
                   match quad_pos with
                   | 0 => a2b_base64 rest 1 this_ch 0
                   | 1 => emit (Z.lor (Z.shiftl leftchar 2) (Z.shiftr this_ch 4))
                            (a2b_base64 rest 2 (Z.land this_ch 15) 0)
                   | 2 => emit (Z.lor (Z.shiftl leftchar 4) (Z.shiftr this_ch 2))
                            (a2b_base64 rest 3 (Z.land this_ch 3) 0)
                   | _ => emit (Z.lor (Z.shiftl leftchar 6) this_ch)
                            (a2b_base64 rest 0 0 0)
                   end
               end).
  rewrite Hpad, Ha. reflexivity.
Qed.

(** a full group of four characters gives its three bytes back *)
Lemma a2b_base64_group (x y z : byte) (rest : string) :
  a2b_base64 (encode3 (Z_of_byte x) (Z_of_byte y) (Z_of_byte z) ++ rest) 0 0 0 =
  r <- a2b_base64 rest 0 0 0 ;; Returned (x :: y :: z :: r).
Proof.
  destruct (first_facts x y) as (S1 & S2 & B1 & L1).
  destruct (second_facts y z) as (S3 & S4 & B2 & L2 & B3).
  unfold encode3. fold (second_sextet (Z_of_byte x) (Z_of_byte y)).
  fold (third_sextet (Z_of_byte y) (Z_of_byte z)).
  cbn [String.append].
  rewrite (a2b_base64_sextet _ _ 0 _ _ S1).
  rewrite (a2b_base64_sextet _ _ 1 _ _ S2).
  rewrite L1.
  rewrite (a2b_base64_sextet _ _ 2 _ _ S3).
  rewrite L2.
  rewrite (a2b_base64_sextet _ _ 3 _ _ S4).
  unfold emit. rewrite B1, B2, B3.
  destruct (a2b_base64 rest 0 0 0); reflexivity.
Qed.

Lemma a2b_base64_pad2 (leftchar : Z) : a2b_base64 "==" 2 leftchar 0 = Returned [].
Proof. reflexivity. Qed.

Lemma a2b_base64_pad1 (leftchar : Z) : a2b_base64 "=" 3 leftchar 0 = Returned [].
Proof. reflexivity. Qed.

Lemma second_sextet_last (a : Z) : second_sextet a (Z_of_byte x00) = Z.shiftl (Z.land a 3) 4.
Proof. unfold second_sextet. change (Z.shiftr (Z_of_byte x00) 4) with 0. apply Z.lor_0_r. Qed.

Lemma third_sextet_last (b : Z) : third_sextet b (Z_of_byte x00) = Z.shiftl (Z.land b 15) 2.
Proof. unfold third_sextet. change (Z.shiftr (Z_of_byte x00) 6) with 0. apply Z.lor_0_r. Qed.

Lemma a2b_base64_one (x : byte) : a2b_base64 (b64encode [x]) 0 0 0 = Returned [x].
Proof.
  destruct (first_facts x x00) as (S1 & S2 & B1 & L1).
  rewrite second_sextet_last in S2, B1, L1.
  cbn [b64encode].
  rewrite (a2b_base64_sextet _ _ 0 _ _ S1).
  rewrite (a2b_base64_sextet _ _ 1 _ _ S2).
  rewrite a2b_base64_pad2. unfold emit, bind. now rewrite B1.
Qed.

Lemma a2b_base64_two (x y : byte) : a2b_base64 (b64encode [x; y]) 0 0 0 = Returned [x; y].
Proof.
  destruct (first_facts x y) as (S1 & S2 & B1 & L1).
  destruct (second_facts y x00) as (S3 & _ & B2 & _).
  rewrite third_sextet_last in S3, B2.
  cbn [b64encode]. fold (second_sextet (Z_of_byte x) (Z_of_byte y)).
  rewrite (a2b_base64_sextet _ _ 0 _ _ S1).
  rewrite (a2b_base64_sextet _ _ 1 _ _ S2).
  rewrite L1.
  rewrite (a2b_base64_sextet _ _ 2 _ _ S3).
  rewrite a2b_base64_pad1. unfold emit, bind. now rewrite B1, B2.
Qed.

Lemma a2b_base64_b64encode_upto (n : nat) :
  forall bs, (List.length bs <= n)%nat -> a2b_base64 (b64encode bs) 0 0 0 = Returned bs.
Proof.
  induction n as [|n IH]; intros bs Hlen.
  - destruct bs; [reflexivity | simpl in Hlen; lia].
  - destruct bs as [|x [|y [|z rest]]].
    + reflexivity.
    + apply a2b_base64_one.
    + apply a2b_base64_two.
    + change (b64encode (x :: y :: z :: rest))
        with (encode3 (Z_of_byte x) (Z_of_byte y) (Z_of_byte z) ++ b64encode rest).
      rewrite a2b_base64_group, IH; [reflexivity | simpl in Hlen; lia].
Qed.

Lemma a2b_base64_b64encode (bs : list byte) :
  a2b_base64 (b64encode bs) 0 0 0 = Returned bs.
Proof. apply (a2b_base64_b64encode_upto (List.length bs)). lia. Qed.

Lemma all_ascii_app (s t : string) : all_ascii (s ++ t) = all_ascii s && all_ascii t.
Proof.
  induction s as [|c s IH]; [reflexivity|].
  cbn [String.append all_ascii]. rewrite IH. apply andb_assoc.
Qed.

Lemma all_ascii_sextet (v : Z) (s : string) :
  sextet v = true -> all_ascii (String (b2a v) s) = all_ascii s.
Proof.
  intros Hv. destruct (alphabet_sextet v Hv) as (_ & _ & Hlt).
  cbn [all_ascii]. now rewrite Hlt.
Qed.

Lemma all_ascii_b64encode_upto (n : nat) :
  forall bs, (List.length bs <= n)%nat -> all_ascii (b64encode bs) = true.
Proof.
  induction n as [|n IH]; intros bs Hlen.
  - destruct bs; [reflexivity | simpl in Hlen; lia].
  - destruct bs as [|x [|y [|z rest]]].
    + reflexivity.
    + destruct (first_facts x x00) as (S1 & S2 & _).
      rewrite second_sextet_last in S2.
      cbn [b64encode]. now rewrite !all_ascii_sextet.
    + destruct (first_facts x y) as (S1 & S2 & _).
      destruct (second_facts y x00) as (S3 & _).
      rewrite third_sextet_last in S3.
      cbn [b64encode]. fold (second_sextet (Z_of_byte x) (Z_of_byte y)).
      now rewrite !all_ascii_sextet.
    + destruct (first_facts x y) as (S1 & S2 & _).
      destruct (second_facts y z) as (S3 & S4 & _).
      change (b64encode (x :: y :: z :: rest))
        with (encode3 (Z_of_byte x) (Z_of_byte y) (Z_of_byte z) ++ b64encode rest).
      rewrite all_ascii_app, IH by (simpl in Hlen; lia).
      unfold encode3. fold (second_sextet (Z_of_byte x) (Z_of_byte y)).
      fold (third_sextet (Z_of_byte y) (Z_of_byte z)).
      now rewrite !all_ascii_sextet.
Qed.

Theorem b64decode_b64encode (bs : list byte) :
  b64decode (JStr (b64encode bs)) = Returned bs.
Proof.
  unfold b64decode.
  rewrite (all_ascii_b64encode_upto (List.length bs)) by lia.
  apply a2b_base64_b64encode.
Qed.

End Base64Facts.

(** ** The model on concrete inputs *)

Section Examples.
Import PromptTester.

Example split_header :
  PyStr.split ":" "data:image/png;base64" = ["data"; "image/png;base64"].
Proof. reflexivity. Qed.

Example split1_uri :
  PyStr.split1 "," "data:image/png;base64,AA,BB" = ["data:image/png;base64"; "AA,BB"].
Proof. reflexivity. Qed.

Example of_int_401 : PyStr.of_int 401 = "401".
Proof. reflexivity. Qed.

Example of_int_neg : PyStr.of_int (-5) = "-5".
Proof. reflexivity. Qed.

Example b64encode_hello : Base64.b64encode [x68; x65; x6c; x6c; x6f] = "aGVsbG8=".
Proof. reflexivity. Qed.

Example b64decode_hello :
  Base64.b64decode (JStr "aGVsbG8=") = Returned [x68; x65; x6c; x6c; x6f].
Proof. reflexivity. Qed.

Example b64decode_open_group : Base64.b64decode (JStr "aGVsbG8") = Raised BinasciiError.
Proof. reflexivity. Qed.

Example extract_data_uri :
  extract (response_with_url "data:image/png;base64,AAAA")
  = Returned (Success (JStr "AAAA") (JStr "image/png")).
Proof. reflexivity. Qed.

Example extract_inline_data :
  extract
    (JDict
       [("choices",
         JList
           [JDict
              [("message",
                JDict
                  [("images",
                    JList
                      [JDict
                         [("inline_data",
                           JDict [("data", JStr "AAAA"); ("mime_type", JStr "image/jpeg")])]])])]])])
  = Returned (Success (JStr "AAAA") (JStr "image/jpeg")).
Proof. reflexivity. Qed.

Example aspect_ratio_card :
  py_item (payload "model" "AAAA" "image/jpeg" "prompt" (Some CARD_WIDTH) (Some CARD_HEIGHT))
    "image_config"
  = Returned (JDict [("aspect_ratio", JStr "3:4")]).
Proof. reflexivity. Qed.

Example verify_dimensions_zero :
  VerifyDimensions.payload "model" "AAAA" "image/jpeg" "prompt" 0 0 = Raised ZeroDivisionError.
Proof. reflexivity. Qed.

End Examples.

(** ** The extractor *)

Section PromptTesterFacts.
Import PromptTester.

(** ** Splitting strings *)

Lemma split_nonempty (sep : ascii) (s : string) : PyStr.split sep s <> [].
Proof.
  destruct s as [|c s]; cbn [PyStr.split]; [discriminate|].
  destruct (Ascii.eqb c sep); [discriminate|].
  destruct (PyStr.split sep s); discriminate.
Qed.

Lemma split1_nonempty (sep : ascii) (s : string) : PyStr.split1 sep s <> [].
Proof.
  destruct s as [|c s]; cbn [PyStr.split1]; [discriminate|].
  destruct (Ascii.eqb c sep); [discriminate|].
  destruct (PyStr.split1 sep s); discriminate.
Qed.

Lemma split_cons (sep c : ascii) (s : string) :
  Ascii.eqb c sep = false ->
  exists seg segs, PyStr.split sep s = seg :: segs /\
                   PyStr.split sep (String c s) = String c seg :: segs.
Proof.
  intros Hc. cbn [PyStr.split]. rewrite Hc.
  destruct (PyStr.split sep s) as [|seg segs] eqn:E.
  - now apply split_nonempty in E.
  - now exists seg, segs.
Qed.

Lemma split1_cons (sep c : ascii) (s : string) :
  Ascii.eqb c sep = false ->
  exists seg segs, PyStr.split1 sep s = seg :: segs /\
                   PyStr.split1 sep (String c s) = String c seg :: segs.
Proof.
  intros Hc. cbn [PyStr.split1]. rewrite Hc.
  destruct (PyStr.split1 sep s) as [|seg segs] eqn:E.
  - now apply split1_nonempty in E.
  - now exists seg, segs.
Qed.

(** without the separator there is one segment *)
Lemma split1_without (sep : ascii) (s : string) :
  has_char sep s = false -> PyStr.split1 sep s = [s].
Proof.
  induction s as [|c s IH]; intros H; [reflexivity|].
  cbn [has_char] in H. apply orb_false_iff in H. destruct H as [Hc Hs].
  cbn [PyStr.split1]. rewrite Hc, (IH Hs). reflexivity.
Qed.

Lemma split_without (sep : ascii) (s : string) :
  has_char sep s = false -> PyStr.split sep s = [s].
Proof.
  induction s as [|c s IH]; intros H; [reflexivity|].
  cbn [has_char] in H. apply orb_false_iff in H. destruct H as [Hc Hs].
  cbn [PyStr.split]. rewrite Hc, (IH Hs). reflexivity.
Qed.

(** [split(sep, 1)] gives two segments exactly when the separator occurs *)
Lemma split1_length (sep : ascii) (s : string) :
  List.length (PyStr.split1 sep s) = (if has_char sep s then 2 else 1)%nat.
Proof.
  induction s as [|c s IH]; [reflexivity|].
  cbn [PyStr.split1 has_char].
  destruct (Ascii.eqb c sep); [reflexivity|].
  cbn [orb]. rewrite <- IH.
  destruct (PyStr.split1 sep s) eqn:E; [now apply split1_nonempty in E | reflexivity].
Qed.

(** cutting at the first separator *)
Lemma split1_at (sep : ascii) (s t : string) :
  has_char sep s = false ->
  PyStr.split1 sep (s ++ String sep t) = [s; t].
Proof.
  induction s as [|c s IH]; intros H.
  - cbn. now rewrite Ascii.eqb_refl.
  - cbn [has_char] in H. apply orb_false_iff in H. destruct H as [Hc Hs].
    cbn [String.append PyStr.split1]. rewrite Hc, (IH Hs). reflexivity.
Qed.

Lemma split_at (sep : ascii) (s t : string) :
  has_char sep s = false ->
  PyStr.split sep (s ++ String sep t) = s :: PyStr.split sep t.
Proof.
  induction s as [|c s IH]; intros H.
  - cbn [String.append PyStr.split]. now rewrite Ascii.eqb_refl.
  - cbn [has_char] in H. apply orb_false_iff in H. destruct H as [Hc Hs].
    cbn [String.append PyStr.split]. rewrite Hc, (IH Hs). reflexivity.
Qed.

(** a string that starts with the scheme marker *)
Lemma prefix_data (u : string) :
  String.prefix "data:" u = true -> exists rest, u = "data:" ++ rest.
Proof.
  intros H.
  do 5 (destruct u as [|? u]; [discriminate|];
        cbn [String.prefix] in H;
        match type of H with
        | (if ?d then _ else _) = true => destruct d as [->|]; [|discriminate]
        end).
  now exists u.
Qed.

(** the header of such a string has a segment after its first colon *)
Lemma data_header (rest : string) :
  exists header tail after_colon more,
    PyStr.split1 "," ("data:" ++ rest) = header :: tail /\
    PyStr.split ":" header = "data" :: after_colon :: more.
Proof.
  destruct (PyStr.split1 "," rest) as [|seg segs] eqn:E;
    [now apply split1_nonempty in E|].
  exists ("data:" ++ seg), segs.
  destruct (PyStr.split ":" seg) as [|a more] eqn:E';
    [now apply split_nonempty in E'|].
  exists a, more. split.
  - cbn. now rewrite E.
  - cbn. now rewrite E'.
Qed.

(** ** The branches of the extractor on an object *)

(** expose the Python operations of a branch *)
Ltac py_ops := unfold data_uri_candidate, inline_or_bare, py_in, py_item, bind.

Lemma inline_or_bare_dict (fields : list (string * json)) :
  inline_or_bare (JDict fields) =
  match lookup "inline_data" fields with
  | Some (JDict inline) =>
      Returned (Some (Success (with_default (lookup "data" inline) (JStr EmptyString))
                              (with_default (lookup "mime_type" inline) (JStr "image/png"))))
  | Some _ => Raised AttributeError
  | None =>
      match lookup "data" fields with
      | Some d =>
          Returned (Some (Success d (with_default (lookup "mime_type" fields) (JStr "image/png"))))
      | None => Returned None
      end
  end.
Proof.
  py_ops.
  destruct (lookup "inline_data" fields) as [v|].
  - destruct v; reflexivity.
  - destruct (lookup "data" fields); reflexivity.
Qed.

(** Only an object gets a result out of the two branches. *)
Lemma inline_or_bare_some (x : json) (res : result) :
  inline_or_bare x = Returned (Some res) -> exists fields, x = JDict fields.
Proof.
  destruct x; try discriminate.
  - py_ops.
    destruct (PyStr.contains "inline_data" s); [discriminate|].
    destruct (PyStr.contains "data" s); discriminate.
  - py_ops.
    destruct (existsb (is_str "inline_data") items); [discriminate|].
    destruct (existsb (is_str "data") items); discriminate.
  - intros _. now exists fields.
Qed.

Lemma data_uri_parts (u : string) :
  String.prefix "data:" u = true ->
  forall header payload, PyStr.split1 "," u = [header; payload] ->
  exists after_colon more mime more',
    PyStr.split ":" header = "data" :: after_colon :: more /\
    PyStr.split ";" after_colon = mime :: more' /\
    header_mime u = mime.
Proof.
  intros Hp header payload Hs.
  destruct (prefix_data u Hp) as [rest ->].
  destruct (data_header rest) as (header' & tail & after_colon & more & H1 & H2).
  rewrite Hs in H1. injection H1 as <- <-.
  destruct (PyStr.split ";" after_colon) as [|mime more'] eqn:E;
    [now apply split_nonempty in E|].
  exists after_colon, more, mime, more'. repeat split; auto.
  unfold header_mime. now rewrite Hs, H2, E.
Qed.

(** The [image_url] branch when [image_url.url] is a string. *)
Lemma data_uri_candidate_url (img : json) (u : string) :
  image_url_of img u ->
  data_uri_candidate img =
  if String.prefix "data:" u then
    match PyStr.split1 "," u with
    | [_; payload] => Returned (Some (Success (JStr payload) (JStr (header_mime u))))
    | _ => Returned None
    end
  else Returned None.
Proof.
  intros (fields & image_url & -> & Hiu & Hurl).
  py_ops. rewrite Hiu, Hurl.
  cbn [py_str_method].
  destruct (String.prefix "data:" u) eqn:Hp; [|reflexivity].
  destruct (PyStr.split1 "," u) as [|header [|payload [|extra tail]]] eqn:Hs;
    try reflexivity.
  - destruct (data_uri_parts u Hp header payload Hs)
      as (after_colon & more & mime & more' & H1 & H2 & H3).
    cbn [List.length Z.of_nat Z.eqb Pos.of_succ_nat Pos.succ Pos.eqb list_item nth_error].
    rewrite H1. cbn [list_item nth_error]. rewrite H2. cbn [list_item nth_error].
    now rewrite H3.
  - replace (Z.of_nat (List.length (header :: payload :: extra :: tail)) =? 2) with false;
      [reflexivity|].
    symmetry. apply Z.eqb_neq. cbn [List.length]. lia.
Qed.

(** The [image_url] branch on an object, in general. *)
Lemma data_uri_candidate_dict (fields : list (string * json)) :
  data_uri_candidate (JDict fields) =
  match lookup "image_url" fields with
  | None => Returned None
  | Some image_url =>
      has_url <- py_in "url" image_url ;;
      if has_url then
        url <- py_item image_url "url" ;;
        u <- py_str_method url ;;
        if String.prefix "data:" u then
          match PyStr.split1 "," u with
          | [_; payload] => Returned (Some (Success (JStr payload) (JStr (header_mime u))))
          | _ => Returned None
          end
        else Returned None
      else Returned None
  end.
Proof.
  destruct (lookup "image_url" fields) as [image_url|] eqn:Hiu.
  - destruct image_url as [| | | |s|items|iu].
    1-4: py_ops; now rewrite Hiu.
    + py_ops. rewrite Hiu.
      now destruct (PyStr.contains "url" s).
    + py_ops. rewrite Hiu.
      now destruct (existsb (is_str "url") items).
    + destruct (lookup "url" iu) as [url|] eqn:Hurl.
      * destruct url as [| | | |u| |].
        5: { rewrite (data_uri_candidate_url (JDict fields) u).
             - py_ops. now rewrite Hurl.
             - now exists fields, iu. }
        all: py_ops; now rewrite Hiu, Hurl.
      * py_ops. now rewrite Hiu, Hurl.
  - py_ops. now rewrite Hiu.
Qed.

(** A result of the [image_url] branch comes from a string URL with the
    scheme marker, and carries its header's media type. *)
Lemma data_uri_candidate_some (img : json) (res : result) :
  data_uri_candidate img = Returned (Some res) ->
  exists u payload header,
    image_url_of img u /\ String.prefix "data:" u = true /\
    PyStr.split1 "," u = [header; payload] /\
    res = Success (JStr payload) (JStr (header_mime u)).
Proof.
  destruct img as [| | | |s|items|fields]; try discriminate.
  - py_ops.
    destruct (PyStr.contains "image_url" s); discriminate.
  - py_ops.
    destruct (existsb (is_str "image_url") items); discriminate.
  - rewrite data_uri_candidate_dict.
    destruct (lookup "image_url" fields) as [image_url|] eqn:Hiu; [|discriminate].
    destruct image_url as [| | | |s|items|iu]; try discriminate.
    + py_ops. destruct (PyStr.contains "url" s); discriminate.
    + py_ops. destruct (existsb (is_str "url") items); discriminate.
    + py_ops.
      destruct (lookup "url" iu) as [url|] eqn:Hurl; [|discriminate].
      destruct url as [| | | |u| |]; try discriminate.
      cbn [py_str_method].
      destruct (String.prefix "data:" u) eqn:Hp; [|discriminate].
      destruct (PyStr.split1 "," u) as [|header [|payload [|extra tail]]] eqn:Hs;
        try discriminate.
      intros H. injection H as <-.
      exists u, payload, header. repeat split; auto.
      now exists fields, iu.
Qed.

(** ** The steps of [extract] *)

Lemma first_message_of_image (data img : json) :
  first_image data img ->
  exists msg rest,
    first_message data = Returned (JDict msg) /\
    lookup "images" msg = Some (JList (img :: rest)).
Proof.
  intros (fields & choice & rest_choices & msg & rest & -> & Hc & Hm & Hi).
  exists msg, rest. split; [|exact Hi].
  unfold first_message, py_get, bind. rewrite Hc. cbn [with_default py_first].
  now rewrite Hm.
Qed.

Lemma images_step_first (msg : list (string * json)) (img : json) (rest : list json) :
  lookup "images" msg = Some (JList (img :: rest)) ->
  images_step (JDict msg) =
  (r <- data_uri_candidate img ;;
   match r with
   | Some res => Returned (Some res)
   | None => inline_or_bare img
   end).
Proof.
  intros Hi. unfold images_step, py_get. rewrite Hi.
  cbn [with_default bind py_truthy py_len].
  replace (0 <? Z.of_nat (List.length (img :: rest))) with true; [reflexivity|].
  symmetry. apply Z.ltb_lt. cbn [List.length]. lia.
Qed.

Lemma images_step_falsy (msg : list (string * json)) :
  py_truthy (with_default (lookup "images" msg) (JList [])) = false ->
  images_step (JDict msg) = Returned None.
Proof.
  intros H. unfold images_step, py_get. cbn [bind]. now rewrite H.
Qed.

(** A one-character string, which is what [images[0]] is when [images] is a
    string, matches no branch. *)
Lemma one_character_no_candidate (c : ascii) :
  data_uri_candidate (JStr (String c EmptyString)) = Returned None
  /\ inline_or_bare (JStr (String c EmptyString)) = Returned None.
Proof. destruct c as [[] [] [] [] [] [] [] []]; split; reflexivity. Qed.

(** A result of the images step comes from the first entry of the list. *)
Lemma images_step_some (message : json) (res : result) :
  images_step message = Returned (Some res) ->
  exists msg img rest,
    message = JDict msg
    /\ lookup "images" msg = Some (JList (img :: rest))
    /\ (data_uri_candidate img = Returned (Some res)
        \/ inline_or_bare img = Returned (Some res)).
Proof.
  destruct message as [| | | | | |msg]; try discriminate.
  unfold images_step, py_get. cbn [bind].
  destruct (lookup "images" msg) as [images|] eqn:Hi; [|discriminate].
  cbn [with_default].
  destruct (py_truthy images); [|discriminate].
  destruct (py_len images) as [n|]; [|discriminate]. cbn [bind].
  destruct (0 <? n); [|discriminate].
  destruct images as [| | | |s|items|fields]; try discriminate.
  - destruct s as [|c s]; [discriminate|]. cbn [py_first bind].
    destruct (one_character_no_candidate c) as [-> ->]. discriminate.
  - destruct items as [|img rest]; [discriminate|]. cbn [py_first bind].
    destruct (data_uri_candidate img) as [[r|]|] eqn:E; cbn [bind]; try discriminate.
    + intros H. injection H as <-. exists msg, img, rest. auto.
    + intros H. exists msg, img, rest. auto.
Qed.

Lemma scan_content_some (items : list json) (res : result) :
  scan_content items = Returned (Some res) ->
  exists item, In item items /\ inline_or_bare item = Returned (Some res).
Proof.
  induction items as [|item items IH]; [discriminate|].
  cbn [scan_content].
  destruct (py_get item "type" JNull) as [ty|]; [|discriminate]. cbn [bind].
  destruct (type_matches ty).
  - destruct (inline_or_bare item) as [[r|]|] eqn:E; cbn [bind]; try discriminate.
    + intros H. injection H as <-. exists item. split; [now left | exact E].
    + intros H. destruct (IH H) as (it & Hin & Hit). exists it. split; [now right | exact Hit].
  - intros H. destruct (IH H) as (it & Hin & Hit). exists it. split; [now right | exact Hit].
Qed.

(** Every [Success] is built by one of the three branches, from the first
    entry of [images] or from an element of the [content] list. *)
Lemma extract_success_source (data : json) (b m : json) :
  extract data = Returned (Success b m) ->
  exists msg x,
    first_message data = Returned (JDict msg)
    /\ candidate_of msg x
    /\ (data_uri_candidate x = Returned (Some (Success b m))
        \/ inline_or_bare x = Returned (Some (Success b m))).
Proof.
  unfold extract.
  destruct (first_message data) as [message|]; [|discriminate]. cbn [bind].
  destruct (images_step message) as [[r|]|] eqn:E; cbn [bind]; try discriminate.
  - intros H. injection H as ->.
    apply images_step_some in E. destruct E as (msg & img & rest & -> & Hi & Hsrc).
    exists msg, img. repeat split; auto. left. now exists rest.
  - destruct message as [| | | | | |msg]; try discriminate.
    unfold content_and_text, py_get. cbn [bind].
    destruct (with_default (lookup "content" msg) (JStr EmptyString)) as [| | | |s|items|]
      eqn:Hc; cbn [content_step bind text_step]; try discriminate.
    + unfold no_image. destruct (PyStr.nonempty s); discriminate.
    + destruct (scan_content items) as [[r|]|] eqn:E'; cbn [bind]; try discriminate.
      intros H. injection H as ->.
      apply scan_content_some in E'. destruct E' as (item & Hin & Hit).
      exists msg, item. repeat split; auto. right. exists items. split; [|exact Hin].
      destruct (lookup "content" msg); [now cbn in Hc; subst | discriminate].
Qed.

(** With a successful transport, a JSON body and no debug output,
    [generate_image] is the extraction. *)
Lemma generate_image_extract (post : request -> outcome response)
    (api_key model image_base64 mime_type prompt : string)
    (timeout : Z) (width height : option Z) (resp : response) (data : json) :
  post (request_of api_key model image_base64 mime_type prompt timeout width height)
  = Returned resp ->
  ok resp = true ->
  json_body resp = Returned data ->
  generate_image post api_key model image_base64 mime_type prompt timeout width height false
  = extract data.
Proof.
  intros Hpost Hok Hjson. unfold generate_image.
  rewrite Hpost. cbn [bind]. rewrite Hok. cbn [negb]. rewrite Hjson. reflexivity.
Qed.

(** ** Responses of the expected schema *)

Lemma image_entry_returns (img : json) :
  image_entry_ok img = true ->
  (exists r, data_uri_candidate img = Returned r) /\
  (exists r, inline_or_bare img = Returned r).
Proof.
  destruct img as [| | | | | |fields]; try discriminate.
  cbn [image_entry_ok]. unfold field_is. intros H.
  apply andb_true_iff in H. destruct H as [Hiu Hin]. split.
  - rewrite data_uri_candidate_dict.
    destruct (lookup "image_url" fields) as [iu|]; [|now eexists].
    destruct iu as [| | | | | |iuf]; try discriminate.
    unfold py_in, py_item, bind.
    destruct (lookup "url" iuf) as [url|]; [|now eexists].
    destruct url as [| | | |u| |]; try discriminate.
    cbn [py_str_method].
    destruct (String.prefix "data:" u); [|now eexists].
    destruct (PyStr.split1 "," u) as [|? [|? [|? ?]]]; now eexists.
  - rewrite inline_or_bare_dict.
    destruct (lookup "inline_data" fields) as [v|].
    + destruct v; try discriminate. now eexists.
    + destruct (lookup "data" fields); now eexists.
Qed.

Lemma content_item_returns (item : json) :
  content_item_ok item = true -> exists r, inline_or_bare item = Returned r.
Proof.
  destruct item as [| | | | | |fields]; try discriminate.
  cbn [content_item_ok]. unfold field_is. intros H.
  rewrite inline_or_bare_dict.
  destruct (lookup "inline_data" fields) as [v|].
  - destruct v; try discriminate. now eexists.
  - destruct (lookup "data" fields); now eexists.
Qed.

Lemma scan_content_returns (items : list json) :
  forallb content_item_ok items = true -> exists r, scan_content items = Returned r.
Proof.
  induction items as [|item items IH]; intros H; [now eexists|].
  cbn [forallb] in H. apply andb_true_iff in H. destruct H as [Hitem Hrest].
  destruct (IH Hrest) as [r Hr].
  destruct (content_item_returns item Hitem) as [r' Hr'].
  cbn [scan_content].
  destruct item as [| | | | | |fields]; try discriminate.
  cbn [py_get bind].
  destruct (type_matches _); [|now exists r].
  rewrite Hr'. cbn [bind]. destruct r'; [now eexists | now exists r].
Qed.

Lemma first_message_returns (data : json) :
  response_ok data = true ->
  exists msg, first_message data = Returned (JDict msg) /\ message_ok (JDict msg) = true.
Proof.
  destruct data as [| | | | | |fields]; try discriminate.
  cbn [response_ok]. unfold field_is, first_message, py_get. cbn [bind].
  destruct (lookup "choices" fields) as [choices|]; cbn [with_default].
  - destruct choices as [| | | | |items|]; try discriminate.
    destruct items as [|first rest]; try discriminate.
    destruct first as [| | | | | |choice]; try discriminate.
    cbn [choices_ok py_first bind]. unfold field_is.
    destruct (lookup "message" choice) as [message|]; cbn [with_default].
    + destruct message; try discriminate. intros H. now eexists.
    + intros _. now exists [].
  - intros _. now exists [].
Qed.

Lemma images_step_returns (msg : list (string * json)) :
  message_ok (JDict msg) = true -> exists r, images_step (JDict msg) = Returned r.
Proof.
  cbn [message_ok]. unfold field_is. intros H.
  apply andb_true_iff in H. destruct H as [Hi _].
  destruct (py_truthy (with_default (lookup "images" msg) (JList []))) eqn:Ht.
  - destruct (lookup "images" msg) as [images|] eqn:Hl; [|discriminate].
    cbn [with_default] in Ht. unfold images_ok in Hi. rewrite Ht in Hi.
    cbn [negb orb] in Hi.
    destruct images as [| | | | |items|]; try discriminate.
    destruct items as [|img rest]; try discriminate.
    rewrite (images_step_first msg img rest Hl).
    destruct (image_entry_returns img Hi) as [[r Hr] [r' Hr']].
    rewrite Hr. cbn [bind]. destruct r; [now eexists | now exists r'].
  - rewrite images_step_falsy by exact Ht. now eexists.
Qed.

Lemma content_and_text_returns (msg : list (string * json)) :
  message_ok (JDict msg) = true -> exists r, content_and_text (JDict msg) = Returned r.
Proof.
  cbn [message_ok]. unfold field_is. intros H.
  apply andb_true_iff in H. destruct H as [_ Hc].
  unfold content_and_text, py_get. cbn [bind].
  destruct (lookup "content" msg) as [content|]; cbn [with_default].
  - destruct content; cbn [content_step bind]; try now eexists.
    cbn [content_ok] in Hc. destruct (scan_content_returns items Hc) as [r ->].
    cbn [bind]. destruct r; now eexists.
  - now eexists.
Qed.

(** ** Scanning a content list *)

Lemma scan_content_skip (item : json) (rest : list json) :
  skipped item = true -> scan_content (item :: rest) = scan_content rest.
Proof.
  unfold skipped. intros H. apply andb_true_iff in H. destruct H as [Hd Hc].
  destruct item as [| | | | | |fields]; try discriminate.
  cbn [scan_content py_get bind].
  cbn [carries_image has_key] in Hc. apply negb_true_iff in Hc.
  destruct (type_matches _); [|reflexivity].
  cbn [andb] in Hc. rewrite inline_or_bare_dict.
  destruct (lookup "inline_data" fields); [discriminate|].
  destruct (lookup "data" fields); [discriminate|]. reflexivity.
Qed.

Lemma scan_content_skip_all (pre rest : list json) :
  forallb skipped pre = true -> scan_content (pre ++ rest) = scan_content rest.
Proof.
  induction pre as [|item pre IH]; intros H; [reflexivity|].
  cbn [forallb] in H. apply andb_true_iff in H. destruct H as [Hi Hp].
  cbn [app]. rewrite (scan_content_skip item _ Hi). now apply IH.
Qed.

Lemma scan_content_hit (item : json) (post : list json) :
  content_item_ok item = true -> carries_image item = true ->
  scan_content (item :: post) = Returned (Some (success_of item)).
Proof.
  destruct item as [| | | | | |fields]; try discriminate.
  cbn [content_item_ok carries_image has_key success_of]. unfold field_is.
  intros Hok Hc. apply andb_true_iff in Hc. destruct Hc as [Ht Hk].
  cbn [scan_content py_get bind]. rewrite Ht, inline_or_bare_dict.
  destruct (lookup "inline_data" fields) as [v|].
  - destruct v; try discriminate. reflexivity.
  - destruct (lookup "data" fields); [reflexivity | discriminate].
Qed.

Lemma content_matches_nothing_text (content : json) :
  content_matches_nothing content = true ->
  (r <- content_step content ;;
   match r with
   | Some res => Returned res
   | None => Returned (text_step content)
   end) = Returned no_image.
Proof.
  destruct content; try reflexivity.
  - cbn [content_matches_nothing content_step bind text_step].
    intros H. apply negb_true_iff in H. now rewrite H.
  - cbn [content_matches_nothing content_step]. intros H.
    rewrite <- (app_nil_r items), scan_content_skip_all by exact H. reflexivity.
Qed.

Lemma content_and_text_nothing (msg : list (string * json)) :
  content_matches_nothing (with_default (lookup "content" msg) (JStr EmptyString)) = true ->
  content_and_text (JDict msg) = Returned no_image.
Proof.
  intros H. unfold content_and_text, py_get. cbn [bind].
  now apply content_matches_nothing_text.
Qed.

Lemma take_length (n : nat) (s : string) : (String.length (PyStr.take n s) <= n)%nat.
Proof.
  unfold PyStr.take. revert s.
  induction n as [|n IH]; intros [|c s]; cbn; try lia.
  specialize (IH s). lia.
Qed.

Lemma take_prefix (n : nat) (s : string) : String.prefix (PyStr.take n s) s = true.
Proof.
  unfold PyStr.take. revert s.
  induction n as [|n IH]; intros [|c s]; cbn; try reflexivity.
  destruct (ascii_dec c c); [apply IH | congruence].
Qed.

Lemma take_short (n : nat) (s : string) :
  (String.length s <= n)%nat -> PyStr.take n s = s.
Proof.
  unfold PyStr.take. revert s.
  induction n as [|n IH]; intros [|c s]; cbn; intros H; try reflexivity; try lia.
  f_equal. apply IH. lia.
Qed.

(** [s[:n]] has [n] characters, or all of [s] when [s] is shorter. *)
Lemma take_length_min (n : nat) (s : string) :
  String.length (PyStr.take n s) = Nat.min n (String.length s).
Proof.
  unfold PyStr.take. revert s.
  induction n as [|n IH]; intros [|c s]; cbn; try reflexivity.
  now rewrite IH.
Qed.

Lemma has_char_app (c : ascii) (s t : string) :
  has_char c (s ++ t) = has_char c s || has_char c t.
Proof.
  induction s as [|c' s IH]; [reflexivity|].
  cbn [String.append has_char]. rewrite IH. apply orb_assoc.
Qed.

Lemma append_assoc' (s t u : string) : (s ++ t) ++ u = s ++ (t ++ u).
Proof. induction s as [|c s IH]; [reflexivity | cbn; now rewrite IH]. Qed.

Lemma prefix_append (s t : string) : String.prefix s (s ++ t) = true.
Proof.
  induction s as [|c s IH]; [now destruct t|].
  cbn [String.append String.prefix].
  destruct (ascii_dec c c); [exact IH | congruence].
Qed.

Lemma data_uri_split (m : string) (bs : list byte) :
  plain_mime m = true ->
  String.prefix "data:" (data_uri m bs) = true /\
  PyStr.split1 "," (data_uri m bs) = ["data:" ++ m ++ ";base64"; Base64.b64encode bs] /\
  header_mime (data_uri m bs) = m.
Proof.
  unfold plain_mime. intros H.
  apply andb_true_iff in H. destruct H as [H Hsemi].
  apply andb_true_iff in H. destruct H as [Hcomma Hcolon].
  apply negb_true_iff in Hsemi, Hcomma, Hcolon.
  assert (Hs : PyStr.split1 "," (data_uri m bs)
               = ["data:" ++ m ++ ";base64"; Base64.b64encode bs]).
  { replace (data_uri m bs)
      with (("data:" ++ m ++ ";base64") ++ String "," (Base64.b64encode bs)).
    - apply split1_at.
      change ("data:" ++ m ++ ";base64") with ("data:" ++ (m ++ ";base64")).
      now rewrite !has_char_app, Hcomma.
    - unfold data_uri. cbn [String.append]. do 5 f_equal.
      now rewrite append_assoc'. }
  split; [apply prefix_append|]. split; [exact Hs|].
  unfold header_mime. rewrite Hs.
  change ("data:" ++ m ++ ";base64") with ("data" ++ String ":" (m ++ ";base64")).
  rewrite split_at by reflexivity.
  rewrite split_without by (now rewrite has_char_app, Hcolon).
  change (m ++ ";base64") with (m ++ String ";" "base64").
  now rewrite split_at by exact Hsemi.
Qed.

(** ** The properties of the specification *)

(** C1, as stated, fails: the extractor raises on an empty completions list,
    on a first completion that is not an object, on a first images element
    that is not a container, and on a content list with an item that is not
    an object. *)
Lemma extract_raises_on_unexpected_shapes :
  extract (JDict [("choices", JList [])]) = Raised IndexError
  /\ extract (JDict [("choices", JList [JStr "first"])]) = Raised AttributeError
  /\ extract
       (JDict [("choices",
                JList [JDict [("message", JDict [("images", JList [JInt 7])])]])])
     = Raised TypeError
  /\ extract
       (JDict [("choices",
                JList [JDict [("message", JDict [("content", JList [JStr "text"])])]])])
     = Raised AttributeError.
Proof. repeat split; reflexivity. Qed.

(** C1, amended: on every response of the expected schema (an object; a
    non-empty [choices] list starting with an object, or none; an object
    [message], or none; [images] absent, falsy, or a list starting with an
    object whose [image_url] is an object with a string [url] and whose
    [inline_data] is an object, where present; a [content] list holding
    only objects whose [inline_data], where present, is an object) the
    extraction returns a result, [Success] or [Failure], and does not
    raise. *)
Theorem extract_returns_on_schema (data : json) :
  response_ok data = true -> exists r, extract data = Returned r.
Proof.
  intros Hok.
  destruct (first_message_returns data Hok) as (msg & Hm & Hmsg).
  unfold extract. rewrite Hm. cbn [bind].
  destruct (images_step_returns msg Hmsg) as [r ->]. cbn [bind].
  destruct r as [res|]; [now exists res|].
  now apply content_and_text_returns.
Qed.

Lemma extract_returns_on_schema_witness :
  response_ok (response_with_url "data:image/png;base64,AAAA") = true
  /\ exists r, extract (response_with_url "data:image/png;base64,AAAA") = Returned r.
Proof.
  split; [reflexivity|].
  apply (extract_returns_on_schema (response_with_url "data:image/png;base64,AAAA")).
  reflexivity.
Defined.




(** C3, as stated, fails: a data URI whose header names no media type gives
    [Success] with the empty string as media type. *)
Lemma empty_media_type_from_header :
  extract (response_with_url "data:;base64,AAAA")
  = Returned (Success (JStr "AAAA") (JStr EmptyString)).
Proof. reflexivity. Qed.

(** C3, amended: every [Success] is built from the first entry of [images]
    or from an element of the [content] list, and its media type is either
    the media-type segment of that entry's data-URI header, taken as written
    (so empty when the header has none), or the [mime_type] value stored in
    the [inline_data] object, or next to the bare [data] field, when that
    key is present, and [image/png] when it is absent. *)
Theorem success_media_type (data b m : json) :
  extract data = Returned (Success b m) ->
  exists msg fields,
    first_message data = Returned (JDict msg)
    /\ candidate_of msg (JDict fields)
    /\ ((exists u header payload,
            image_url_of (JDict fields) u /\ String.prefix "data:" u = true
            /\ PyStr.split1 "," u = [header; payload]
            /\ b = JStr payload
            /\ m = JStr (header_mime u))
        \/ (exists inline,
               lookup "inline_data" fields = Some (JDict inline)
               /\ b = with_default (lookup "data" inline) (JStr EmptyString)
               /\ m = with_default (lookup "mime_type" inline) (JStr "image/png"))
        \/ (lookup "inline_data" fields = None
            /\ lookup "data" fields = Some b
            /\ m = with_default (lookup "mime_type" fields) (JStr "image/png"))).
Proof.
  intros H.
  destruct (extract_success_source data b m H) as (msg & x & Hm & Hcand & [Hx|Hx]).
  - destruct (data_uri_candidate_some x _ Hx) as (u & payload & header & Hu & Hp & Hs & Heq).
    injection Heq as -> ->.
    pose proof Hu as (fields & iu & -> & _).
    exists msg, fields. repeat split; auto.
    left. exists u, header, payload. repeat split; auto.
  - destruct (inline_or_bare_some x _ Hx) as [fields ->].
    exists msg, fields. repeat split; auto. right.
    rewrite inline_or_bare_dict in Hx.
    destruct (lookup "inline_data" fields) as [v|] eqn:Hin.
    + left. destruct v as [| | | | | |inline]; try discriminate.
      injection Hx as <- <-. now exists inline.
    + right. destruct (lookup "data" fields) as [d|] eqn:Hd; [|discriminate].
      injection Hx as <- <-. auto.
Qed.

Lemma success_media_type_witness :
  let fields := [("inline_data", JDict [("data", JStr "AAAA")])] in
  let data :=
    JDict [("choices",
            JList [JDict [("message", JDict [("images", JList [JDict fields])])]])] in
  extract data = Returned (Success (JStr "AAAA") (JStr "image/png"))
  /\ exists msg fields',
      first_message data = Returned (JDict msg) /\ candidate_of msg (JDict fields').
Proof.
  intros fields data. split; [reflexivity|].
  destruct (success_media_type data (JStr "AAAA") (JStr "image/png") eq_refl)
    as (msg & fields' & Hm & Hc & _).
  now exists msg, fields'.
Defined.

Lemma standard_types_plain (m : string) :
  In m standard_image_types -> plain_mime m = true.
Proof.
  assert (H : forallb plain_mime standard_image_types = true) by reflexivity.
  rewrite forallb_forall in H. apply H.
Qed.

(** C4: for every byte sequence [bs] and standard image media type [m], a
    response whose first images element holds [data:m;base64,<base64 of bs>]
    under [image_url.url] extracts to [Success] with media type [m], and
    [save_image] on its payload writes exactly [bs]. *)
Theorem data_uri_round_trip (m : string) (bs : list byte) (data img : json) :
  In m standard_image_types ->
  first_image data img ->
  image_url_of img (data_uri m bs) ->
  exists b,
    extract data = Returned (Success b (JStr m))
    /\ forall path fs,
        exists fs', save_image b path fs = Returned fs'
                    /\ read_file path fs' = Some bs.
Proof.
  intros Hm Hfirst Hurl.
  destruct (data_uri_split m bs (standard_types_plain m Hm)) as (Hp & Hs & Hh).
  destruct (first_message_of_image data img Hfirst) as (msg & rest & Hmsg & Himg).
  exists (JStr (Base64.b64encode bs)). split.
  - unfold extract. rewrite Hmsg. cbn [bind].
    rewrite (images_step_first msg img rest Himg).
    rewrite (data_uri_candidate_url img _ Hurl), Hp, Hs, Hh. reflexivity.
  - intros path fs. exists ((path, bs) :: fs). split.
    + unfold save_image. now rewrite b64decode_b64encode.
    + cbn [read_file]. now rewrite String.eqb_refl.
Qed.

Lemma data_uri_round_trip_witness :
  let bs := [x89; x50; x4e; x47] in
  let data := response_with_url (data_uri "image/png" bs) in
  exists b,
    extract data = Returned (Success b (JStr "image/png"))
    /\ forall path fs,
        exists fs', save_image b path fs = Returned fs'
                    /\ read_file path fs' = Some bs.
Proof.
  intros bs data.
  apply (data_uri_round_trip "image/png" bs data
           (JDict [("image_url", JDict [("url", JStr (data_uri "image/png" bs))])])).
  - simpl. tauto.
  - unfold first_image. repeat eexists; reflexivity.
  - unfold image_url_of. repeat eexists; reflexivity.
Defined.

(** C5, as stated, fails: 304 is not a 2xx status, yet [response.ok] holds
    for it and [generate_image] goes on to parse the body as JSON. *)
Lemma redirect_status_is_parsed :
  let resp := {| status_code := 304; text := "unauthorized";
                 json_body := Raised JSONDecodeError |} in
  ~ (200 <= status_code resp < 300)
  /\ generate_image (fun _ => Returned resp)
       "key" "model" "AAAA" "image/png" "prompt" 120 None None false
     = Raised JSONDecodeError.
Proof. split; [cbn; lia | reflexivity]. Qed.

(** C5, amended: for every response with a status [s] from 400 to 599 (those
    for which [response.ok] is false) and body [b], [generate_image] returns
    the failure [HTTP s: <snippet>], where the snippet is the first 200
    characters of [b] (all of [b] when it is shorter), whatever parsing the
    body as JSON would give: the body is not parsed and no extraction step
    runs.  Status 401 with body [unauthorized] gives
    [HTTP 401: unauthorized].  For every other status the body is parsed as
    JSON and the outcome is that of the parse followed by the extraction. *)
Theorem http_error_short_circuit (post : request -> outcome response)
    (api_key model image_base64 mime_type prompt : string)
    (timeout : Z) (width height : option Z) (debug : bool)
    (s : Z) (b : string) (parsed : outcome json) :
  post (request_of api_key model image_base64 mime_type prompt timeout width height)
  = Returned {| status_code := s; text := b; json_body := parsed |} ->
  (400 <= s < 600 ->
   exists snippet,
     generate_image post api_key model image_base64 mime_type prompt timeout width height
       debug
     = Returned (Failure ("HTTP " ++ PyStr.of_int s ++ ": " ++ snippet))
     /\ String.prefix snippet b = true
     /\ String.length snippet = Nat.min 200 (String.length b))
  /\ (s = 401 -> b = "unauthorized" ->
      generate_image post api_key model image_base64 mime_type prompt timeout width height
        debug
      = Returned (Failure "HTTP 401: unauthorized"))
  /\ (~ (400 <= s < 600) ->
      generate_image post api_key model image_base64 mime_type prompt timeout width height
        debug
      = (data <- parsed ;;
         _ <- (if debug then debug_response data else Returned tt) ;;
         extract data)).
Proof.
  intros Hpost.
  assert (H : 400 <= s < 600 ->
              generate_image post api_key model image_base64 mime_type prompt timeout
                width height debug
              = Returned (Failure ("HTTP " ++ PyStr.of_int s ++ ": " ++ PyStr.take 200 b))).
  { intros Hs. unfold generate_image. rewrite Hpost. cbn [bind]. unfold ok.
    cbn [status_code text].
    replace (400 <=? s) with true by (symmetry; apply Z.leb_le; lia).
    replace (s <? 600) with true by (symmetry; apply Z.ltb_lt; lia).
    reflexivity. }
  split; [|split].
  - intros Hs. exists (PyStr.take 200 b). split; [exact (H Hs)|]. split.
    + apply take_prefix.
    + apply take_length_min.
  - intros -> ->. rewrite H by lia. reflexivity.
  - intros Hs. unfold generate_image. rewrite Hpost. cbn [bind]. unfold ok.
    cbn [status_code json_body].
    replace ((400 <=? s) && (s <? 600)) with false; [reflexivity|].
    symmetry. apply andb_false_iff.
    destruct (Z.leb_spec 400 s); [right; apply Z.ltb_ge; lia | now left].
Qed.

Lemma http_error_short_circuit_witness :
  generate_image
    (fun _ => Returned {| status_code := 401; text := "unauthorized";
                          json_body := Raised JSONDecodeError |})
    "key" "model" "AAAA" "image/png" "prompt" 120 (Some 1728) (Some 2304) true
  = Returned (Failure "HTTP 401: unauthorized")
  /\ generate_image
       (fun _ => Returned {| status_code := 302; text := "moved";
                             json_body := Raised JSONDecodeError |})
       "key" "model" "AAAA" "image/png" "prompt" 120 None None false
     = Raised JSONDecodeError.
Proof.
  split.
  - apply (proj1 (proj2 (http_error_short_circuit
             (fun _ => Returned {| status_code := 401; text := "unauthorized";
                                   json_body := Raised JSONDecodeError |})
             "key" "model" "AAAA" "image/png" "prompt" 120 (Some 1728) (Some 2304) true
             401 "unauthorized" (Raised JSONDecodeError) eq_refl)));
      reflexivity.
  - apply (proj2 (proj2 (http_error_short_circuit
             (fun _ => Returned {| status_code := 302; text := "moved";
                                   json_body := Raised JSONDecodeError |})
             "key" "model" "AAAA" "image/png" "prompt" 120 None None false
             302 "moved" (Raised JSONDecodeError) eq_refl))).
    lia.
Defined.

(** C6, as stated, fails: a first images entry that is a number yields no
    image, the content is a plain non-empty text, and the extraction raises
    instead of returning the text failure. *)
Lemma text_after_malformed_images_raises :
  let msg := [("images", JList [JInt 7]); ("content", JStr "Sorry, I cannot.")] in
  let data := JDict [("choices", JList [JDict [("message", JDict msg)]])] in
  first_message data = Returned (JDict msg)
  /\ images_step (JDict msg) = Raised TypeError
  /\ extract data = Raised TypeError.
Proof. repeat split; reflexivity. Qed.

(** C6, amended: when the images step ends without a result and without
    raising ([images] absent or falsy, or a first entry that is examined and
    matches none of the three forms) and [content] is a non-empty string
    [t], the result is the text failure whose message ends with the first
    200 characters of [t]: a prefix of [t] of length 200, or all of [t] when
    [t] is shorter. *)
Theorem text_content_failure (data : json) (msg : list (string * json)) (t : string) :
  first_message data = Returned (JDict msg) ->
  images_step (JDict msg) = Returned None ->
  lookup "content" msg = Some (JStr t) ->
  t <> EmptyString ->
  exists snippet,
    extract data
    = Returned (Failure ("Model returned text instead of image: " ++ snippet))
    /\ String.prefix snippet t = true
    /\ String.length snippet = Nat.min 200 (String.length t)
    /\ ((String.length t <= 200)%nat -> snippet = t).
Proof.
  intros Hm Hi Hc Ht. exists (PyStr.take 200 t). repeat split.
  - unfold extract. rewrite Hm. cbn [bind]. rewrite Hi. cbn [bind].
    unfold content_and_text, py_get. cbn [bind]. rewrite Hc.
    cbn [with_default content_step bind text_step].
    destruct t; [congruence | reflexivity].
  - apply take_prefix.
  - apply take_length_min.
  - apply take_short.
Qed.

Lemma text_content_failure_witness :
  let t := "I am sorry, but I cannot create that image. I am sorry, but I cannot create that image. I am sorry, but I cannot create that image. I am sorry, but I cannot create that image. I am sorry, but I cannot create that image." in
  let msg := [("images", JList []); ("content", JStr t)] in
  exists snippet,
    extract (JDict [("choices", JList [JDict [("message", JDict msg)]])])
    = Returned (Failure ("Model returned text instead of image: " ++ snippet))
    /\ String.prefix snippet t = true
    /\ String.length snippet = Nat.min 200 (String.length t)
    /\ ((String.length t <= 200)%nat -> snippet = t).
Proof.
  intros t msg.
  apply (text_content_failure
           (JDict [("choices", JList [JDict [("message", JDict msg)]])])
           msg t eq_refl eq_refl eq_refl).
  discriminate.
Defined.

(** C7, as stated, fails: with an empty completions list there is no first
    completion, hence no message, and the extraction raises instead of
    returning the no-image failure. *)
Lemma empty_completions_raise :
  first_message (JDict [("choices", JList [])]) = Raised IndexError
  /\ extract (JDict [("choices", JList [])]) = Raised IndexError
  /\ extract (JDict [("choices", JList [])]) <> Returned no_image.
Proof. repeat split; try reflexivity. discriminate. Qed.

(** C7, amended: a response without a [choices] field, or whose first
    completion is an object with no [message], gives the no-image failure;
    so does a message whose [images] and [content] are both empty lists. *)
Theorem absent_message_or_empty_lists (data : json) :
  (forall fields,
      data = JDict fields -> lookup "choices" fields = None ->
      extract data = Returned no_image)
  /\ (forall fields choice rest,
         data = JDict fields ->
         lookup "choices" fields = Some (JList (JDict choice :: rest)) ->
         lookup "message" choice = None ->
         extract data = Returned no_image)
  /\ (forall msg,
         first_message data = Returned (JDict msg) ->
         lookup "images" msg = Some (JList []) ->
         lookup "content" msg = Some (JList []) ->
         extract data = Returned no_image).
Proof.
  repeat split.
  - intros fields -> Hc. unfold extract, first_message, py_get. cbn [bind]. now rewrite Hc.
  - intros fields choice rest -> Hc Hm.
    unfold extract, first_message, py_get. cbn [bind]. rewrite Hc.
    cbn [with_default py_first bind]. now rewrite Hm.
  - intros msg Hm Hi Hc. unfold extract. rewrite Hm. cbn [bind].
    rewrite images_step_falsy by now rewrite Hi.
    cbn [bind]. apply content_and_text_nothing. now rewrite Hc.
Qed.

Lemma absent_message_or_empty_lists_witness :
  extract (JDict [("choices", JList [JDict [("index", JInt 0)]])]) = Returned no_image
  /\ extract
       (JDict [("choices",
                JList [JDict [("message",
                               JDict [("images", JList []); ("content", JList [])])]])])
     = Returned no_image.
Proof.
  split.
  - apply (proj1 (proj2 (absent_message_or_empty_lists
                           (JDict [("choices", JList [JDict [("index", JInt 0)]])])))
             [("choices", JList [JDict [("index", JInt 0)]])] [("index", JInt 0)] []);
      reflexivity.
  - apply (proj2 (proj2 (absent_message_or_empty_lists
                           (JDict [("choices",
                                    JList [JDict [("message",
                                                   JDict [("images", JList []);
                                                          ("content", JList [])])]])])))
             [("images", JList []); ("content", JList [])]);
      reflexivity.
Defined.

(** C8, as stated, fails: after a comma-free data URL the extraction goes on
    to the [inline_data] branch, and raises there when that field is not an
    object. *)
Lemma comma_free_then_inline_data_raises :
  let u := "data:image/png;base64" in
  let img := JDict [("image_url", JDict [("url", JStr u)]); ("inline_data", JNull)] in
  let data :=
    JDict [("choices", JList [JDict [("message", JDict [("images", JList [img])])]])] in
  first_image data img
  /\ image_url_of img u
  /\ String.prefix "data:" u = true
  /\ List.length (PyStr.split1 "," u) <> 2%nat
  /\ extract data = Raised AttributeError.
Proof.
  repeat split; try reflexivity.
  - unfold first_image. repeat eexists; reflexivity.
  - unfold image_url_of. repeat eexists; reflexivity.
  - discriminate.
Qed.

(** C8, amended: a URL that starts with [data:] but does not split in two at
    the first comma makes the [image_url] branch yield nothing, without
    raising; the outcome of the extraction is then that of the remaining
    candidates (inline data, bare data, then content), which is a result
    whenever the message is of the expected schema, and the no-image failure
    when none of them matches. *)
Theorem comma_free_data_uri_falls_through (data img : json) (u : string) :
  first_image data img ->
  image_url_of img u ->
  String.prefix "data:" u = true ->
  List.length (PyStr.split1 "," u) <> 2%nat ->
  data_uri_candidate img = Returned None
  /\ exists msg,
      first_message data = Returned (JDict msg)
      /\ extract data
         = (r <- inline_or_bare img ;;
            match r with
            | Some res => Returned res
            | None => content_and_text (JDict msg)
            end)
      /\ (message_ok (JDict msg) = true -> exists r, extract data = Returned r)
      /\ (has_key "inline_data" img = false ->
          has_key "data" img = false ->
          content_matches_nothing
            (with_default (lookup "content" msg) (JStr EmptyString)) = true ->
          extract data = Returned no_image).
Proof.
  intros Hfirst Hurl Hp Hlen.
  assert (Hc : data_uri_candidate img = Returned None).
  { rewrite (data_uri_candidate_url img u Hurl), Hp.
    destruct (PyStr.split1 "," u) as [|? [|? [|? ?]]]; try reflexivity.
    now contradiction Hlen. }
  split; [exact Hc|].
  destruct (first_message_of_image data img Hfirst) as (msg & rest & Hmsg & Himg).
  exists msg. split; [exact Hmsg|].
  assert (He : extract data
               = (r <- inline_or_bare img ;;
                  match r with
                  | Some res => Returned res
                  | None => content_and_text (JDict msg)
                  end)).
  { unfold extract. rewrite Hmsg. cbn [bind].
    rewrite (images_step_first msg img rest Himg), Hc. cbn [bind].
    destruct (inline_or_bare img) as [[res|]|]; reflexivity. }
  split; [exact He|]. split.
  - intros Hok. rewrite He.
    destruct (content_and_text_returns msg Hok) as [r' Hr'].
    assert (Himg_ok : image_entry_ok img = true).
    { cbn [message_ok] in Hok. unfold field_is in Hok. rewrite Himg in Hok.
      apply andb_true_iff in Hok. destruct Hok as [Hi _].
      unfold images_ok in Hi. cbn [py_truthy negb orb] in Hi. exact Hi. }
    destruct (image_entry_returns img Himg_ok) as [_ [r Hr]].
    rewrite Hr. cbn [bind]. destruct r as [res|]; [now exists res | now exists r'].
  - intros Hin Hd Hnothing. rewrite He.
    destruct Hurl as (fields & iu & -> & _ & _).
    rewrite inline_or_bare_dict. cbn [has_key] in Hin, Hd.
    destruct (lookup "inline_data" fields); [discriminate|].
    destruct (lookup "data" fields); [discriminate|].
    cbn [bind]. now apply content_and_text_nothing.
Qed.

Lemma comma_free_data_uri_falls_through_witness :
  extract (response_with_url "data:image/png;base64") = Returned no_image.
Proof.
  destruct (comma_free_data_uri_falls_through
              (response_with_url "data:image/png;base64")
              (JDict [("image_url", JDict [("url", JStr "data:image/png;base64")])])
              "data:image/png;base64")
    as (_ & msg & Hmsg & _ & _ & Hnone).
  - unfold first_image. repeat eexists; reflexivity.
  - unfold image_url_of. repeat eexists; reflexivity.
  - reflexivity.
  - discriminate.
  - injection Hmsg as <-. apply Hnone; reflexivity.
Defined.

Lemma payload_dimension_keys (model image_base64 mime_type prompt : string)
    (width height : option Z) (k : string) :
  k = "image_size" \/ k = "image_config" ->
  has_key k (payload model image_base64 mime_type prompt width height)
  = given width && given height.
Proof.
  intros Hk. unfold payload, dimension_fields.
  destruct (given width && given height) eqn:Hg.
  - destruct width as [w|]; [|discriminate].
    destruct height as [h|]; [|now rewrite andb_false_r in Hg].
    destruct Hk as [-> | ->]; reflexivity.
  - destruct Hk as [-> | ->]; reflexivity.
Qed.

Lemma given_iff (n : option Z) : given n = true <-> exists z, n = Some z /\ z <> 0.
Proof.
  destruct n as [z|]; cbn [given].
  - rewrite negb_true_iff, Z.eqb_neq. split.
    + intros H. now exists z.
    + intros (z' & Hz & Hne). now injection Hz as ->.
  - split; [discriminate | now intros (z & Hz & _)].
Qed.

(** C9, as stated, fails: two negative dimensions are sent as they are. *)
Lemma negative_dimensions_sent :
  has_key "image_size" (payload "model" "AAAA" "image/png" "prompt" (Some (-2)) (Some (-3)))
  = true
  /\ has_key "image_config"
       (payload "model" "AAAA" "image/png" "prompt" (Some (-2)) (Some (-3)))
     = true
  /\ ~ (0 < -2 /\ 0 < -3).
Proof. repeat split; try reflexivity. lia. Qed.

(** C9, amended: the payload [prompt_tester.generate_image] sends contains
    [image_size] and [image_config] if and only if both a width and a height
    are supplied and non-zero; then [image_size] carries them unchanged, and
    with one or no dimension both fields are absent.  The payload of
    [verify_dimensions.generate_image], whose dimensions are required
    arguments, always contains both fields. *)
Theorem dimension_fields_iff (api_key model image_base64 mime_type prompt : string)
    (timeout : Z) (width height : option Z) :
  let sent :=
    req_json (request_of api_key model image_base64 mime_type prompt timeout width height) in
  (has_key "image_size" sent = true
   <-> exists w h, width = Some w /\ height = Some h /\ w <> 0 /\ h <> 0)
  /\ has_key "image_config" sent = has_key "image_size" sent
  /\ (forall w h,
         width = Some w -> height = Some h -> w <> 0 -> h <> 0 ->
         py_item sent "image_size"
         = Returned (JDict [("width", JInt w); ("height", JInt h)]))
  /\ (width = None \/ height = None ->
      has_key "image_size" sent = false /\ has_key "image_config" sent = false)
  /\ (forall w h sent',
         VerifyDimensions.payload model image_base64 mime_type prompt w h = Returned sent' ->
         has_key "image_size" sent' = true /\ has_key "image_config" sent' = true).
Proof.
  cbn [request_of req_json].
  rewrite !payload_dimension_keys by auto.
  repeat split.
  - intros H. apply andb_true_iff in H. destruct H as [Hw Hh].
    apply given_iff in Hw, Hh. destruct Hw as (w & -> & Hw). destruct Hh as (h & -> & Hh).
    now exists w, h.
  - intros (w & h & -> & -> & Hw & Hh). apply andb_true_iff.
    split; apply given_iff; eexists; eauto.
  - intros w h -> -> Hw Hh. unfold payload, dimension_fields.
    replace (given (Some w)) with true by (symmetry; apply given_iff; eexists; eauto).
    replace (given (Some h)) with true by (symmetry; apply given_iff; eexists; eauto).
    reflexivity.
  - destruct H as [-> | ->]; [reflexivity | apply andb_false_r].
  - destruct H as [-> | ->]; [reflexivity | apply andb_false_r].
  - unfold VerifyDimensions.payload in H.
    destruct (VerifyDimensions.floordiv w (Z.gcd w h)); [|discriminate].
    destruct (VerifyDimensions.floordiv h (Z.gcd w h)); [|discriminate].
    cbn [bind] in H. injection H as <-. reflexivity.
  - unfold VerifyDimensions.payload in H.
    destruct (VerifyDimensions.floordiv w (Z.gcd w h)); [|discriminate].
    destruct (VerifyDimensions.floordiv h (Z.gcd w h)); [|discriminate].
    cbn [bind] in H. injection H as <-. reflexivity.
Qed.

Lemma dimension_fields_iff_witness :
  let sent :=
    req_json (request_of "key" "model" "AAAA" "image/png" "prompt" 120
                (Some CARD_WIDTH) (Some CARD_HEIGHT)) in
  has_key "image_size" sent = true
  /\ py_item sent "image_size"
     = Returned (JDict [("width", JInt 1728); ("height", JInt 2304)])
  /\ has_key "image_size"
       (req_json (request_of "key" "model" "AAAA" "image/png" "prompt" 120
                    (Some CARD_WIDTH) None)) = false.
Proof.
  intros sent.
  pose proof (dimension_fields_iff "key" "model" "AAAA" "image/png" "prompt" 120
                (Some CARD_WIDTH) (Some CARD_HEIGHT)) as (Hiff & _ & Hsize & _).
  pose proof (dimension_fields_iff "key" "model" "AAAA" "image/png" "prompt" 120
                (Some CARD_WIDTH) None) as (_ & _ & _ & Habsent & _).
  split; [|split].
  - apply Hiff. exists CARD_WIDTH, CARD_HEIGHT. repeat split; discriminate.
  - apply (Hsize CARD_WIDTH CARD_HEIGHT); try reflexivity; discriminate.
  - apply Habsent. now right.
Defined.

(** C10, as stated, fails: the [image_url] branch comes first, so an element
    that also holds a data URI gives that URI's payload, although its
    [inline_data] object has no [data] field. *)
Lemma data_uri_precedes_inline_data :
  let inline := [("mime_type", JStr "image/png")] in
  let img :=
    JDict [("image_url", JDict [("url", JStr "data:image/png;base64,AAAA")]);
           ("inline_data", JDict inline)] in
  let data :=
    JDict [("choices", JList [JDict [("message", JDict [("images", JList [img])])]])] in
  first_image data img
  /\ py_item img "inline_data" = Returned (JDict inline)
  /\ lookup "data" inline = None
  /\ extract data = Returned (Success (JStr "AAAA") (JStr "image/png")).
Proof.
  repeat split; try reflexivity.
  unfold first_image. repeat eexists; reflexivity.
Qed.

(** C10, amended: when no earlier candidate resolves (the [image_url] branch
    for the first images element; the images step and the elements before
    it for a content element), an [inline_data] object without a [data]
    field gives [Success] with the empty string as payload: a [Success] does
    not guarantee image bytes. *)
Theorem inline_data_without_data (data : json) (inline : list (string * json)) :
  lookup "data" inline = None ->
  (forall fields,
      first_image data (JDict fields) ->
      data_uri_candidate (JDict fields) = Returned None ->
      lookup "inline_data" fields = Some (JDict inline) ->
      extract data
      = Returned (Success (JStr EmptyString)
                    (with_default (lookup "mime_type" inline) (JStr "image/png"))))
  /\ (forall msg pre fields post,
         first_message data = Returned (JDict msg) ->
         images_step (JDict msg) = Returned None ->
         lookup "content" msg = Some (JList (pre ++ JDict fields :: post)) ->
         forallb skipped pre = true ->
         type_matches (with_default (lookup "type" fields) JNull) = true ->
         lookup "inline_data" fields = Some (JDict inline) ->
         extract data
         = Returned (Success (JStr EmptyString)
                       (with_default (lookup "mime_type" inline) (JStr "image/png")))).
Proof.
  intros Hd. split.
  - intros fields Hfirst Hc Hin.
    destruct (first_message_of_image data _ Hfirst) as (msg & rest & Hmsg & Himg).
    unfold extract. rewrite Hmsg. cbn [bind].
    rewrite (images_step_first msg _ rest Himg), Hc. cbn [bind].
    rewrite inline_or_bare_dict, Hin, Hd. reflexivity.
  - intros msg pre fields post Hmsg Hi Hc Hpre Hty Hin.
    unfold extract. rewrite Hmsg. cbn [bind]. rewrite Hi. cbn [bind].
    unfold content_and_text, py_get. cbn [bind]. rewrite Hc.
    cbn [with_default content_step].
    rewrite (scan_content_skip_all pre _ Hpre).
    cbn [scan_content py_get bind]. rewrite Hty, inline_or_bare_dict, Hin, Hd.
    reflexivity.
Qed.

Lemma inline_data_without_data_witness :
  extract
    (JDict
       [("choices",
         JList
           [JDict
              [("message",
                JDict [("images", JList [JDict [("inline_data", JDict [])]])])]])])
  = Returned (Success (JStr EmptyString) (JStr "image/png"))
  /\ extract
       (JDict
          [("choices",
            JList
              [JDict
                 [("message",
                   JDict
                     [("content",
                       JList
                         [JDict [("type", JStr "text"); ("text", JStr "here")];
                          JDict [("type", JStr "image"); ("inline_data", JDict [])]])])]])])
     = Returned (Success (JStr EmptyString) (JStr "image/png")).
Proof.
  split.
  - apply (proj1 (inline_data_without_data _ [] eq_refl) [("inline_data", JDict [])]).
    + unfold first_image. repeat eexists; reflexivity.
    + reflexivity.
    + reflexivity.
  - apply (proj2 (inline_data_without_data _ [] eq_refl)
             [("content",
               JList
                 [JDict [("type", JStr "text"); ("text", JStr "here")];
                  JDict [("type", JStr "image"); ("inline_data", JDict [])]])]
             [JDict [("type", JStr "text"); ("text", JStr "here")]]
             [("type", JStr "image"); ("inline_data", JDict [])] []);
      reflexivity.
Defined.

End PromptTesterFacts.

(** ** Stripping whitespace *)

Section StripFacts.
Import PyStr PromptTester.

Lemma lstrip_idempotent (s : string) : lstrip (lstrip s) = lstrip s.
Proof.
  induction s as [|c s IH]; [reflexivity|].
  cbn [lstrip]. destruct (is_space c) eqn:Hc; [exact IH|].
  cbn [lstrip]. now rewrite Hc.
Qed.

Lemma rstrip_idempotent (s : string) : rstrip (rstrip s) = rstrip s.
Proof.
  induction s as [|c s IH]; [reflexivity|].
  cbn [rstrip]. destruct (rstrip s) as [|c' kept] eqn:Hr.
  - destruct (is_space c) eqn:Hc; [reflexivity|].
    cbn [rstrip]. now rewrite Hc.
  - change (rstrip (String c (String c' kept)))
      with (match rstrip (String c' kept) with
            | EmptyString => if is_space c then EmptyString else String c EmptyString
            | k => String c k
            end).
    now rewrite IH.
Qed.

Lemma lstrip_rstrip (s : string) : lstrip (rstrip s) = rstrip (lstrip s).
Proof.
  induction s as [|c s IH]; [reflexivity|].
  cbn [lstrip rstrip]. destruct (is_space c) eqn:Hc.
  - rewrite <- IH. destruct (rstrip s) as [|c' kept]; [reflexivity|].
    cbn [lstrip]. now rewrite Hc.
  - cbn [rstrip].
    destruct (rstrip s) as [|c' kept]; rewrite ?Hc; cbn [lstrip]; now rewrite ?Hc.
Qed.

Lemma strip_trimmed (s : string) : trimmed (strip s).
Proof.
  unfold trimmed, strip. split.
  - now rewrite lstrip_rstrip, lstrip_idempotent.
  - apply rstrip_idempotent.
Qed.

Lemma strip_idempotent (s : string) : strip (strip s) = strip s.
Proof. unfold strip at 1. destruct (strip_trimmed s) as [-> ->]. reflexivity. Qed.

Lemma strip_of_trimmed (s : string) : trimmed s -> strip s = s.
Proof. intros [Hl Hr]. unfold strip. now rewrite Hl, Hr. Qed.

(** Whitespace is removed up to the first character that is not one. *)
Lemma lstrip_app (a b : string) (c : ascii) :
  is_space c = false -> lstrip (a ++ String c b) = lstrip a ++ String c b.
Proof.
  intros Hc. induction a as [|x a IH].
  - cbn [String.append lstrip]. now rewrite Hc.
  - cbn [String.append lstrip]. destruct (is_space x); [exact IH | reflexivity].
Qed.

Lemma rstrip_app (a b : string) (c : ascii) :
  is_space c = false -> rstrip (a ++ String c b) = a ++ String c (rstrip b).
Proof.
  intros Hc.
  assert (Hb : rstrip (String c b) = String c (rstrip b)).
  { cbn [rstrip]. destruct (rstrip b); [now rewrite Hc | reflexivity]. }
  induction a as [|x a IH]; [exact Hb|].
  cbn [String.append]. change (rstrip (String x (a ++ String c b)))
    with (match rstrip (a ++ String c b) with
          | EmptyString => if is_space x then EmptyString else String x EmptyString
          | kept => String x kept
          end).
  rewrite IH. destruct a; reflexivity.
Qed.

Lemma rstrip_lstrip_left (s : string) : rstrip (lstrip (rstrip s)) = strip s.
Proof. unfold strip. now rewrite lstrip_rstrip, rstrip_idempotent. Qed.

Lemma strip_lstrip (s : string) : strip (lstrip s) = strip s.
Proof. unfold strip. now rewrite lstrip_idempotent. Qed.

Lemma strip_rstrip (s : string) : strip (rstrip s) = strip s.
Proof. unfold strip at 1. apply rstrip_lstrip_left. Qed.

(** [lstrip] only removes characters. *)
Lemma has_char_lstrip (c : ascii) (s : string) :
  has_char c s = false -> has_char c (lstrip s) = false.
Proof.
  induction s as [|x s IH]; [reflexivity|].
  cbn [lstrip]. destruct (is_space x); [|auto].
  cbn [has_char]. intros H. apply orb_false_iff in H. now apply IH.
Qed.

End StripFacts.

(** ** [load_env] *)

Section LoadEnvFacts.
Import PyStr PromptTester.

Lemma contains_char (c : ascii) (s : string) :
  contains (String c EmptyString) s = has_char c s.
Proof.
  induction s as [|x s IH]; [reflexivity|].
  cbn [contains String.prefix has_char].
  destruct (ascii_dec c x) as [->|Hne].
  - rewrite Ascii.eqb_refl. now destruct s.
  - rewrite IH. replace (Ascii.eqb x c) with false; [reflexivity|].
    symmetry. apply Ascii.eqb_neq. congruence.
Qed.

Lemma has_char_lstrip_eq (c : ascii) (s : string) :
  is_space c = false -> has_char c (lstrip s) = has_char c s.
Proof.
  intros Hc. induction s as [|x s IH]; [reflexivity|].
  cbn [lstrip]. destruct (is_space x) eqn:Hx; [|reflexivity].
  cbn [has_char]. rewrite IH.
  replace (Ascii.eqb x c) with false; [reflexivity|].
  symmetry. apply Ascii.eqb_neq. intros ->. congruence.
Qed.

Lemma has_char_rstrip_eq (c : ascii) (s : string) :
  is_space c = false -> has_char c (rstrip s) = has_char c s.
Proof.
  intros Hc. induction s as [|x s IH]; [reflexivity|].
  cbn [rstrip has_char]. rewrite <- IH.
  destruct (rstrip s) as [|y kept]; [|reflexivity].
  destruct (is_space x) eqn:Hx; [|reflexivity].
  cbn [has_char]. rewrite orb_false_r. symmetry. apply Ascii.eqb_neq. intros ->. congruence.
Qed.

Lemma has_char_strip (c : ascii) (s : string) :
  is_space c = false -> has_char c (strip s) = has_char c s.
Proof.
  intros Hc. unfold strip. now rewrite has_char_rstrip_eq, has_char_lstrip_eq.
Qed.

Lemma split1_two (sep : ascii) (s : string) :
  has_char sep s = true -> exists a b, split1 sep s = [a; b].
Proof.
  intros H. pose proof (split1_length sep s) as Hl. rewrite H in Hl.
  destruct (split1 sep s) as [|a [|b [|c rest]]]; try discriminate.
  now exists a, b.
Qed.

Lemma dict_get_set (k v : string) (d : env_dict) :
  dict_get k (dict_set k v d) = Some v.
Proof.
  induction d as [|[k' v'] d IH]; cbn [dict_set dict_get].
  - now rewrite String.eqb_refl.
  - destruct (String.eqb k k') eqn:E; cbn [dict_get]; rewrite ?String.eqb_refl, ?E; auto.
Qed.

Lemma dict_get_set_other (k k' v : string) (d : env_dict) :
  k' <> k -> dict_get k' (dict_set k v d) = dict_get k' d.
Proof.
  intros Hne. induction d as [|[k0 v0] d IH]; cbn [dict_set dict_get].
  - replace (String.eqb k' k) with false; [reflexivity|].
    symmetry. now apply String.eqb_neq.
  - destruct (String.eqb k k0) eqn:E; cbn [dict_get].
    + apply String.eqb_eq in E. subst k0.
      replace (String.eqb k' k) with false; [reflexivity|].
      symmetry. now apply String.eqb_neq.
    + now rewrite IH.
Qed.

Lemma env_line_cases (env_vars : env_dict) (line : string) :
  env_line env_vars line = Returned env_vars
  \/ exists key value,
      split1 "=" (strip line) = [key; value]
      /\ env_line env_vars line = Returned (dict_set (strip key) (strip value) env_vars).
Proof.
  unfold env_line.
  destruct (nonempty (strip line) && negb (String.prefix "#" (strip line))
            && contains "=" (strip line)) eqn:E; [|now left].
  apply andb_true_iff in E. destruct E as [_ Hc].
  rewrite contains_char in Hc.
  destruct (split1_two _ _ Hc) as (key & value & Hs).
  right. exists key, value. now rewrite Hs.
Qed.

Lemma env_lines_app (env_vars : env_dict) (l1 l2 : list string) :
  env_lines env_vars (l1 ++ l2)
  = (env_vars' <- env_lines env_vars l1 ;; env_lines env_vars' l2).
Proof.
  revert env_vars. induction l1 as [|line l1 IH]; intros env_vars; [reflexivity|].
  cbn [app env_lines]. destruct (env_line env_vars line); cbn [bind]; [apply IH | reflexivity].
Qed.

Lemma env_lines_returns (lines : list string) :
  forall env_vars, exists env_vars', env_lines env_vars lines = Returned env_vars'.
Proof.
  induction lines as [|line lines IH]; intros env_vars; [now eexists|].
  cbn [env_lines].
  destruct (env_line_cases env_vars line) as [-> | (key & value & _ & ->)];
    cbn [bind]; apply IH.
Qed.

(** X1: parsing never raises: for every list of text lines read from the
    file, and for a missing file, [load_env] returns a dictionary, because a
    line is split only when it contains an equals sign, so that unpacking the
    two parts cannot fail.  (What [open] or the decoding of the file may raise
    comes before the lines and is not covered.) *)
Theorem load_env_returns (file : option (list string)) :
  exists env_vars, load_env file = Returned env_vars.
Proof.
  destruct file as [lines|]; [apply env_lines_returns | now exists []].
Qed.

Lemma dict_set_trimmed (k v : string) (d : env_dict) :
  trimmed k -> trimmed v -> all_trimmed d -> all_trimmed (dict_set k v d).
Proof.
  intros Hk Hv. unfold all_trimmed.
  induction d as [|[k' v'] d IH]; intros Hd; cbn [dict_set].
  - constructor; [now split | constructor].
  - inversion Hd as [|? ? Hhd Htl]; subst.
    destruct (String.eqb k k'); constructor; auto.
Qed.

Lemma env_lines_trimmed (lines : list string) :
  forall env_vars env_vars',
    all_trimmed env_vars ->
    env_lines env_vars lines = Returned env_vars' ->
    all_trimmed env_vars'.
Proof.
  induction lines as [|line lines IH]; intros env_vars env_vars' Hinv.
  - cbn [env_lines]. intros H. now injection H as <-.
  - cbn [env_lines].
    destruct (env_line_cases env_vars line) as [-> | (key & value & _ & ->)];
      cbn [bind]; apply IH; auto using dict_set_trimmed, strip_trimmed.
Qed.

(** X2: every key and every value of the dictionary [load_env] returns has
    no whitespace at either end. *)
Theorem load_env_trimmed (file : option (list string)) (env_vars : env_dict) (k v : string) :
  load_env file = Returned env_vars ->
  In (k, v) env_vars ->
  trimmed k /\ trimmed v.
Proof.
  intros Hload Hin.
  assert (Hall : all_trimmed env_vars).
  { destruct file as [lines|].
    - apply (env_lines_trimmed lines [] env_vars); [constructor | exact Hload].
    - cbn in Hload. injection Hload as <-. constructor. }
  unfold all_trimmed in Hall. rewrite Forall_forall in Hall.
  apply (Hall (k, v) Hin).
Qed.

Lemma load_env_trimmed_witness :
  let file := Some ["  OPENROUTER_API_KEY =  sk-123  "; "# note"] in
  load_env file = Returned [("OPENROUTER_API_KEY", "sk-123")]
  /\ trimmed "OPENROUTER_API_KEY" /\ trimmed "sk-123".
Proof.
  intros file. split; [reflexivity|].
  apply (load_env_trimmed file [("OPENROUTER_API_KEY", "sk-123")]).
  - reflexivity.
  - simpl. tauto.
Defined.

Lemma strip_assignment (k v : string) :
  strip (k ++ String "=" v) = lstrip k ++ String "=" (rstrip v).
Proof.
  unfold strip. rewrite lstrip_app by reflexivity. now rewrite rstrip_app by reflexivity.
Qed.

Lemma env_line_assignment (env_vars : env_dict) (k v : string) :
  has_char "=" k = false ->
  String.prefix "#" (lstrip k) = false ->
  env_line env_vars (k ++ String "=" v)
  = Returned (dict_set (strip k) (strip v) env_vars).
Proof.
  intros Hk Hhash. unfold env_line. rewrite strip_assignment.
  assert (H1 : nonempty (lstrip k ++ String "=" (rstrip v)) = true)
    by now destruct (lstrip k).
  assert (H2 : String.prefix "#" (lstrip k ++ String "=" (rstrip v)) = false).
  { destruct (lstrip k) as [|c r]; cbn [String.append String.prefix] in *.
    - now destruct (ascii_dec "#" "=").
    - destruct (ascii_dec "#" c); [|reflexivity]. now destruct r. }
  assert (H3 : contains "=" (lstrip k ++ String "=" (rstrip v)) = true).
  { rewrite contains_char, has_char_app. cbn [has_char].
    rewrite Ascii.eqb_refl. apply orb_true_r. }
  rewrite H1, H2, H3. cbn [negb andb].
  rewrite split1_at by now apply has_char_lstrip.
  now rewrite strip_lstrip, strip_rstrip.
Qed.

(** X3: a line [k=v] at the end of the file, whose key part holds no equals
    sign and does not begin, after blanks, with a hash, sets the stripped
    key to the stripped value: the line is cut at its first equals sign
    only, and an earlier setting of the same key is replaced. *)
Theorem load_env_assigns (lines : list string) (k v : string) :
  has_char "=" k = false ->
  String.prefix "#" (lstrip k) = false ->
  exists env_vars,
    load_env (Some (lines ++ [(k ++ String "=" v)%string])%list) = Returned env_vars
    /\ dict_get (strip k) env_vars = Some (strip v).
Proof.
  intros Hk Hhash. cbn [load_env]. rewrite env_lines_app.
  destruct (env_lines_returns lines []) as [env_vars ->].
  cbn [bind env_lines]. rewrite (env_line_assignment env_vars k v Hk Hhash).
  cbn [bind]. eexists. split; [reflexivity | apply dict_get_set].
Qed.

Lemma load_env_assigns_witness :
  exists env_vars,
    load_env (Some (["OPENROUTER_MODEL=first"]
                    ++ [(" OPENROUTER_MODEL " ++ String "=" " a=b ")%string])%list)
    = Returned env_vars
    /\ dict_get (strip " OPENROUTER_MODEL ") env_vars = Some (strip " a=b ").
Proof.
  apply (load_env_assigns ["OPENROUTER_MODEL=first"] " OPENROUTER_MODEL " " a=b ");
    reflexivity.
Defined.

Lemma env_line_ignored (env_vars : env_dict) (line : string) :
  ignored_line line = true -> env_line env_vars line = Returned env_vars.
Proof.
  unfold ignored_line, env_line. intros H.
  replace (contains "=" (strip line)) with (contains "=" line)
    by (now rewrite !contains_char, has_char_strip).
  destruct (nonempty (strip line)); [|reflexivity].
  destruct (String.prefix "#" (strip line)); [reflexivity|].
  cbn [negb orb andb] in *. apply negb_true_iff in H. now rewrite H.
Qed.

(** X4: a blank line, a line whose first non-blank character is a hash, and
    a line without an equals sign change nothing: the file reads the same
    without it. *)
Theorem load_env_ignores (before after : list string) (line : string) :
  ignored_line line = true ->
  load_env (Some (before ++ line :: after)%list) = load_env (Some (before ++ after)%list).
Proof.
  intros H. cbn [load_env]. rewrite !env_lines_app.
  destruct (env_lines [] before) as [env_vars|]; [|reflexivity].
  cbn [bind env_lines]. now rewrite (env_line_ignored env_vars line H).
Qed.

Lemma load_env_ignores_witness :
  load_env (Some (["A=1"] ++ "   # B=2" :: ["C=3"])%list)
  = load_env (Some (["A=1"] ++ ["C=3"])%list).
Proof. apply (load_env_ignores ["A=1"] ["C=3"] "   # B=2"). reflexivity. Defined.

End LoadEnvFacts.

(** ** [load_image] and the request *)

Section RequestFacts.
Import PyStr PromptTester.

(** X5: the media type [load_image] returns always starts with [image/]:
    it is the guessed type whenever that one starts with [image/], and
    [image/jpeg] for any other guess, an empty guess or none. *)
Theorem load_image_mime (file : option (list byte)) (guessed : option string)
    (data mime : string) :
  load_image file guessed = Some (data, mime) ->
  String.prefix "image/" mime = true
  /\ (forall m, guessed = Some m -> String.prefix "image/" m = true -> mime = m)
  /\ (forall m, guessed = Some m -> String.prefix "image/" m = false -> mime = "image/jpeg")
  /\ (guessed = None -> mime = "image/jpeg").
Proof.
  unfold load_image. destruct file as [bytes|]; [|discriminate].
  intros H. injection H as _ <-.
  destruct guessed as [g|].
  - destruct (String.prefix "image/" g) eqn:Hp.
    + assert (Hne : nonempty g = true) by (destruct g; [discriminate | reflexivity]).
      rewrite Hne. cbn [negb orb]. repeat split; auto.
      * intros m Hm _. now injection Hm as ->.
      * intros m Hm Hf. injection Hm as ->. congruence.
      * discriminate.
    + rewrite orb_true_r. repeat split; auto.
      intros m Hm Ht. injection Hm as ->. congruence.
  - repeat split; auto; discriminate.
Qed.

Lemma load_image_mime_witness :
  load_image (Some [x89; x50]) (Some "image/png") = Some ("iVA=", "image/png")
  /\ load_image (Some [x89; x50]) (Some "text/plain") = Some ("iVA=", "image/jpeg")
  /\ String.prefix "image/" "image/png" = true.
Proof.
  split; [reflexivity|]. split; [reflexivity|].
  apply (load_image_mime (Some [x89; x50]) (Some "image/png") "iVA=" "image/png").
  reflexivity.
Defined.

(** X6: whenever [load_image] returns, the text it returns decodes to
    exactly the bytes read from the file. *)
Theorem load_image_round_trip (bytes : list byte) (guessed : option string)
    (data mime : string) :
  load_image (Some bytes) guessed = Some (data, mime) ->
  Base64.b64decode (JStr data) = Returned bytes.
Proof.
  unfold load_image. intros H. injection H as <- _. apply b64decode_b64encode.
Qed.

Lemma load_image_round_trip_witness :
  Base64.b64decode (JStr "iVA=") = Returned [x89; x50].
Proof.
  apply (load_image_round_trip [x89; x50] (Some "image/png") "iVA=" "image/png").
  reflexivity.
Defined.

(** X7: debug output never changes a result: whenever [generate_image]
    returns with [debug] on, it returns the same with [debug] off.  (The
    converse fails: the debug block calls [len] on an [images] value that the
    extraction only tests for truth.) *)
Theorem debug_keeps_result (post : request -> outcome response)
    (api_key model image_base64 mime_type prompt : string)
    (timeout : Z) (width height : option Z) (r : result) :
  generate_image post api_key model image_base64 mime_type prompt timeout width height true
  = Returned r ->
  generate_image post api_key model image_base64 mime_type prompt timeout width height false
  = Returned r.
Proof.
  unfold generate_image.
  destruct (post _) as [response|]; [|discriminate]. cbn [bind].
  destruct (negb (ok response)); [auto|].
  destruct (json_body response) as [data|]; [|discriminate]. cbn [bind].
  destruct (debug_response data) as [[]|]; [auto | discriminate].
Qed.

Lemma debug_keeps_result_witness :
  let post := fun _ : request =>
    Returned {| status_code := 200; text := "";
                json_body := Returned (response_with_url "data:image/png;base64,AAAA") |} in
  generate_image post "key" "model" "AAAA" "image/png" "prompt" 120 None None false
  = Returned (Success (JStr "AAAA") (JStr "image/png")).
Proof.
  intros post.
  apply (debug_keeps_result post "key" "model" "AAAA" "image/png" "prompt" 120 None None).
  reflexivity.
Defined.

Lemma debug_can_raise :
  let post := fun _ : request =>
    Returned {| status_code := 200; text := "";
                json_body :=
                  Returned (JDict [("choices",
                                    JList [JDict [("message",
                                                   JDict [("images", JNull)])]])]) |} in
  generate_image post "key" "model" "AAAA" "image/png" "prompt" 120 None None false
  = Returned no_image
  /\ generate_image post "key" "model" "AAAA" "image/png" "prompt" 120 None None true
     = Raised TypeError.
Proof. split; reflexivity. Qed.

Lemma reduced_ratio (w h : Z) :
  w <> 0 \/ h <> 0 ->
  let g := Z.gcd w h in
  Z.gcd (w / g) (h / g) = 1 /\ (w / g) * h = (h / g) * w.
Proof.
  intros Hnz g.
  assert (Hg : g <> 0).
  { unfold g. intros H. apply Z.gcd_eq_0 in H. lia. }
  split.
  - apply Z.gcd_div_gcd; [exact Hg | reflexivity].
  - destruct (Z.gcd_divide_l w h) as [a Ha]. destruct (Z.gcd_divide_r w h) as [b Hb].
    fold g in Ha, Hb.
    assert (Hwa : w / g = a) by (rewrite Ha; now apply Z.div_mul).
    assert (Hhb : h / g = b) by (rewrite Hb; now apply Z.div_mul).
    rewrite Hwa, Hhb, Ha, Hb. ring.
Qed.



(** X9: of the [images] list only the first entry is ever examined: two
    responses whose messages have the same first image and the same
    [content] extract alike, whatever follows in the lists.  When the first
    entry holds no image the later ones are not tried. *)
Theorem only_first_image (data data' : json) (msg msg' : list (string * json))
    (img : json) (rest rest' : list json) :
  first_message data = Returned (JDict msg) ->
  first_message data' = Returned (JDict msg') ->
  lookup "images" msg = Some (JList (img :: rest)) ->
  lookup "images" msg' = Some (JList (img :: rest')) ->
  lookup "content" msg = lookup "content" msg' ->
  extract data = extract data'.
Proof.
  intros Hm Hm' Hi Hi' Hc. unfold extract. rewrite Hm, Hm'. cbn [bind].
  rewrite (images_step_first msg img rest Hi), (images_step_first msg' img rest' Hi').
  unfold content_and_text, py_get. cbn [bind]. now rewrite Hc.
Qed.

Lemma only_first_image_witness :
  let empty := JDict [("note", JStr "nothing here")] in
  let good := JDict [("data", JStr "AAAA")] in
  let response := fun images =>
    JDict [("choices", JList [JDict [("message", JDict [("images", JList images)])]])] in
  extract (response [empty; good]) = extract (response [empty])
  /\ extract (response [empty]) = Returned no_image.
Proof.
  intros empty good response. split; [|reflexivity].
  apply (only_first_image (response [empty; good]) (response [empty])
           [("images", JList [empty; good])] [("images", JList [empty])]
           empty [good] []);
    reflexivity.
Defined.

End RequestFacts.

(** ** [verify_dimensions.py] *)

Section VerifyDimensionsFacts.
Import PyStr PromptTester.

Lemma vd_payload_preset (model image_b64 mime prompt : string) (width height : Z)
    (sent : json) :
  VerifyDimensions.payload model image_b64 mime prompt width height = Returned sent ->
  VerifyDimensions.conflicting_preset sent = Returned false.
Proof.
  unfold VerifyDimensions.payload.
  destruct (VerifyDimensions.floordiv width (Z.gcd width height)); [|discriminate].
  destruct (VerifyDimensions.floordiv height (Z.gcd width height)); [|discriminate].
  cbn [bind]. intros H. injection H as <-. reflexivity.
Qed.

(** X10: no request of either script carries a size preset inside
    [image_config]: the guardrail test of [verify_dimensions.generate_image]
    is false on every payload that function builds, so the exit behind it is
    never taken, and the test is false as well on every payload
    [prompt_tester] sends. *)
Theorem no_conflicting_preset (api_key model image mime prompt : string)
    (width height : Z) (timeout : Z) (w h : option Z) :
  (forall sent,
      VerifyDimensions.payload model image mime prompt width height = Returned sent ->
      VerifyDimensions.conflicting_preset sent = Returned false
      /\ py_item sent "image_size"
         = Returned (JDict [("width", JInt width); ("height", JInt height)]))
  /\ VerifyDimensions.conflicting_preset
       (req_json (request_of api_key model image mime prompt timeout w h))
     = Returned false.
Proof.
  split.
  - intros sent Hsent. split; [exact (vd_payload_preset _ _ _ _ _ _ _ Hsent)|].
    unfold VerifyDimensions.payload in Hsent.
    destruct (VerifyDimensions.floordiv width (Z.gcd width height)); [|discriminate].
    destruct (VerifyDimensions.floordiv height (Z.gcd width height)); [|discriminate].
    cbn [bind] in Hsent. injection Hsent as <-. reflexivity.
  - cbn [request_of req_json]. unfold payload, dimension_fields.
    destruct (given w && given h); [|reflexivity].
    destruct w; [|reflexivity]. destruct h; reflexivity.
Qed.

Lemma no_conflicting_preset_witness :
  exists sent,
    VerifyDimensions.payload "model" "AAAA" "image/jpeg" "prompt" 1728 2304 = Returned sent
    /\ VerifyDimensions.conflicting_preset sent = Returned false
    /\ py_item sent "image_size"
       = Returned (JDict [("width", JInt 1728); ("height", JInt 2304)]).
Proof.
  eexists. split; [reflexivity|].
  apply (proj1 (no_conflicting_preset "key" "model" "AAAA" "image/jpeg" "prompt" 1728 2304
                  120 None None)).
  reflexivity.
Defined.

(** X11: for a status from 400 to 599, [verify_dimensions.generate_image]
    returns [None] whatever the body is; the body is not parsed. *)
Theorem vd_http_error (post : request -> outcome response)
    (api_key model image mime prompt : string) (width height : Z)
    (sent : json) (s : Z) (b : string) (parsed : outcome json) :
  VerifyDimensions.payload model image mime prompt width height = Returned sent ->
  post {| req_url := VerifyDimensions.OPENROUTER_API_URL;
          req_headers := VerifyDimensions.headers api_key;
          req_json := sent;
          req_timeout := 180 |}
  = Returned {| status_code := s; text := b; json_body := parsed |} ->
  400 <= s < 600 ->
  VerifyDimensions.generate_image post api_key model image mime prompt width height
  = VerifyDimensions.Value None.
Proof.
  intros Hsent Hpost Hs. unfold VerifyDimensions.generate_image.
  rewrite Hsent, (vd_payload_preset _ _ _ _ _ _ _ Hsent), Hpost. cbn [bind].
  unfold ok. cbn [status_code].
  replace (400 <=? s) with true by (symmetry; apply Z.leb_le; lia).
  replace (s <? 600) with true by (symmetry; apply Z.ltb_lt; lia).
  reflexivity.
Qed.

Lemma vd_http_error_witness :
  VerifyDimensions.generate_image
    (fun _ => Returned {| status_code := 500; text := "down";
                          json_body := Raised JSONDecodeError |})
    "key" "model" "AAAA" "image/jpeg" "prompt" 1728 2304
  = VerifyDimensions.Value None.
Proof.
  eapply (vd_http_error _ "key" "model" "AAAA" "image/jpeg" "prompt" 1728 2304 _ 500 "down"
            (Raised JSONDecodeError)).
  - reflexivity.
  - reflexivity.
  - lia.
Defined.

(** the start of both extractors *)
Lemma vd_first_message (data : json) :
  VerifyDimensions.first_image_payload data
  = (msg <- first_message data ;;
     imgs <- py_get msg "images" (JList []) ;;
     if py_truthy imgs then
       img <- py_first imgs ;;
       has_image_url <- py_in "image_url" img ;;
       if has_image_url then
         image_url <- py_item img "image_url" ;;
         url <- py_item image_url "url" ;;
         u <- py_str_method url ;;
         if String.prefix "data:" u then
           payload <- list_item (split1 "," u) 1 ;;
           Returned (Some payload)
         else Returned None
       else Returned None
     else Returned None).
Proof.
  unfold VerifyDimensions.first_image_payload, first_message.
  destruct (py_get data "choices" (JList [JDict []])) as [choices|]; [|reflexivity].
  cbn [bind]. destruct (py_first choices); reflexivity.
Qed.

(** what a returned payload says about the response *)
Lemma vd_payload_source (data : json) (p : string) :
  VerifyDimensions.first_image_payload data = Returned (Some p) ->
  exists msg img rest u header,
    first_message data = Returned (JDict msg)
    /\ lookup "images" msg = Some (JList (img :: rest))
    /\ image_url_of img u
    /\ String.prefix "data:" u = true
    /\ split1 "," u = [header; p].
Proof.
  rewrite vd_first_message.
  destruct (first_message data) as [message|]; [|discriminate]. cbn [bind].
  destruct message as [| | | | | |msg]; try discriminate.
  cbn [py_get bind].
  destruct (lookup "images" msg) as [imgs|] eqn:Hi; [|discriminate].
  cbn [with_default].
  destruct (py_truthy imgs); [|discriminate].
  destruct imgs as [| | | |s|items|fields]; try discriminate.
  - destruct s as [|c s]; [discriminate|]. cbn [py_first bind py_in].
    replace (contains "image_url" (String c EmptyString)) with false; [discriminate|].
    destruct c as [[] [] [] [] [] [] [] []]; reflexivity.
  - destruct items as [|img rest]; [discriminate|]. cbn [py_first bind].
    destruct img as [| | | |s|items|fields]; try discriminate.
    + cbn [py_in bind py_item]. destruct (contains "image_url" s); discriminate.
    + cbn [py_in bind py_item]. destruct (existsb (is_str "image_url") items); discriminate.
    + cbn [py_in bind py_item].
      destruct (lookup "image_url" fields) as [iu|] eqn:Hiu; [|discriminate].
      cbn [bind]. destruct iu as [| | | | | |iuf]; try discriminate.
      cbn [py_item].
      destruct (lookup "url" iuf) as [url|] eqn:Hurl; [|discriminate].
      cbn [bind]. destruct url as [| | | |u| |]; try discriminate.
      cbn [py_str_method bind].
      destruct (String.prefix "data:" u) eqn:Hp; [|discriminate].
      pose proof (split1_length "," u) as Hlen.
      destruct (split1 "," u) as [|header [|payload [|extra tail]]] eqn:Hs; try discriminate.
      * cbn [list_item nth_error bind]. intros H. injection H as <-.
        exists msg, (JDict fields), rest, u, header. repeat split; auto.
        now exists fields, iuf.
      * exfalso. cbn [List.length] in Hlen. destruct (has_char "," u); lia.
Qed.

(** X12: the two scripts agree: whenever [verify_dimensions] finds an image
    payload in a response, [prompt_tester] extracts [Success] with the same
    payload from it. *)
Theorem extractors_agree (data : json) (p : string) :
  VerifyDimensions.first_image_payload data = Returned (Some p) ->
  exists m, extract data = Returned (Success (JStr p) (JStr m)).
Proof.
  intros H.
  destruct (vd_payload_source data p H)
    as (msg & img & rest & u & header & Hm & Hi & Hu & Hp & Hs).
  exists (header_mime u). unfold extract. rewrite Hm. cbn [bind].
  rewrite (images_step_first msg img rest Hi).
  rewrite (data_uri_candidate_url img u Hu), Hp, Hs. reflexivity.
Qed.

Lemma extractors_agree_witness :
  exists m,
    extract (response_with_url "data:image/png;base64,AAAA")
    = Returned (Success (JStr "AAAA") (JStr m)).
Proof.
  apply (extractors_agree (response_with_url "data:image/png;base64,AAAA") "AAAA").
  reflexivity.
Defined.

(** X13: on a data URL without a comma the two scripts differ:
    [verify_dimensions] indexes the second part of the split without
    checking for it and raises [IndexError], where [prompt_tester] checks
    the number of parts and goes on. *)
Theorem vd_comma_free_raises (data img : json) (u : string) :
  first_image data img ->
  image_url_of img u ->
  String.prefix "data:" u = true ->
  has_char "," u = false ->
  VerifyDimensions.first_image_payload data = Raised IndexError
  /\ data_uri_candidate img = Returned None.
Proof.
  intros Hfirst Hurl Hp Hc.
  destruct (first_message_of_image data img Hfirst) as (msg & rest & Hm & Hi).
  split.
  - rewrite vd_first_message, Hm. cbn [bind py_get]. rewrite Hi.
    cbn [with_default py_truthy py_first bind].
    destruct Hurl as (fields & iu & -> & Hiu & Hu).
    cbn [py_in py_item]. rewrite Hiu. cbn [bind py_item]. rewrite Hu.
    cbn [bind py_str_method]. rewrite Hp, (split1_without "," u Hc). reflexivity.
  - rewrite (data_uri_candidate_url img u Hurl), Hp, (split1_without "," u Hc).
    reflexivity.
Qed.

Lemma vd_comma_free_raises_witness :
  VerifyDimensions.first_image_payload (response_with_url "data:image/png;base64")
  = Raised IndexError
  /\ extract (response_with_url "data:image/png;base64") = Returned no_image.
Proof.
  split; [|reflexivity].
  apply (vd_comma_free_raises
           (response_with_url "data:image/png;base64")
           (JDict [("image_url", JDict [("url", JStr "data:image/png;base64")])])
           "data:image/png;base64").
  - unfold first_image. repeat eexists; reflexivity.
  - unfold image_url_of. repeat eexists; reflexivity.
  - reflexivity.
  - reflexivity.
Defined.

Lemma check_rows_false (get : string -> outcome (Z * Z)) (rows : list VerifyDimensions.row) :
  VerifyDimensions.check_rows get rows false <> Returned true.
Proof.
  induction rows as [|[[[name filepath] exp_w] exp_h] rows IH]; [discriminate|].
  cbn [VerifyDimensions.check_rows].
  destruct filepath as [path|]; [|exact IH].
  destruct (get path) as [[actual_w actual_h]|]; [|discriminate]. cbn [bind].
  destruct ((actual_w =? exp_w) && (actual_h =? exp_h));
    destruct ((actual_w =? actual_h) && negb (exp_w =? exp_h)); exact IH.
Qed.

Lemma check_rows_true (get : string -> outcome (Z * Z)) (rows : list VerifyDimensions.row) :
  VerifyDimensions.check_rows get rows true = Returned true
  <-> Forall (VerifyDimensions.row_passes get) rows.
Proof.
  induction rows as [|[[[name filepath] exp_w] exp_h] rows IH].
  - split; [constructor | reflexivity].
  - cbn [VerifyDimensions.check_rows]. destruct filepath as [path|].
    + destruct (get path) as [[actual_w actual_h]|] eqn:Hget; cbn [bind].
      * destruct ((actual_w =? exp_w) && (actual_h =? exp_h)) eqn:Hexact.
        -- apply andb_true_iff in Hexact. destruct Hexact as [Hw Hh].
           apply Z.eqb_eq in Hw, Hh. subst actual_w actual_h.
           destruct ((exp_w =? exp_h) && negb (exp_w =? exp_h)) eqn:Hsq.
           ++ apply andb_true_iff in Hsq. destruct Hsq as [H1 H2].
              rewrite H1 in H2. discriminate.
           ++ rewrite IH. split.
              ** intros H. constructor; [exact Hget | exact H].
              ** intros H. now inversion H.
        -- split.
           ++ intros H. exfalso.
              destruct ((actual_w =? actual_h) && negb (exp_w =? exp_h));
                now apply check_rows_false in H.
           ++ intros H. inversion H as [|? ? Hrow _]; subst.
              cbn [VerifyDimensions.row_passes] in Hrow. rewrite Hget in Hrow.
              injection Hrow as -> ->. rewrite !Z.eqb_refl in Hexact. discriminate.
      * split; [discriminate|].
        intros H. inversion H as [|? ? Hrow _]; subst.
        cbn [VerifyDimensions.row_passes] in Hrow. congruence.
    + split.
      * intros H. now apply check_rows_false in H.
      * intros H. inversion H as [|? ? Hrow _]; subst. contradiction.
Qed.

(** X14: the exit code of the test is 0 exactly when every row has a file
    whose measured width and height are the expected ones; the extra check
    for a square image never changes the verdict.  With no rows at all, as
    in quick mode over an empty folder, the code is 0. *)
Theorem verdict_zero (get : string -> outcome (Z * Z)) (rows : list VerifyDimensions.row) :
  (VerifyDimensions.verdict get rows = Returned 0
   <-> Forall (VerifyDimensions.row_passes get) rows)
  /\ VerifyDimensions.verdict get (VerifyDimensions.quick_rows [] []) = Returned 0.
Proof.
  split; [|reflexivity].
  unfold VerifyDimensions.verdict. rewrite <- check_rows_true.
  destruct (VerifyDimensions.check_rows get rows true) as [[]|]; cbn [bind];
    split; intros H; try reflexivity; discriminate.
Qed.

Lemma verdict_zero_witness :
  let get := fun path : string =>
    if String.eqb path "card.png" then Returned (1728, 2304) else Returned (1440, 1440) in
  VerifyDimensions.verdict get [("CARD", Some "card.png", 1728, 2304)] = Returned 0
  /\ VerifyDimensions.verdict get [("SCENE", Some "scene.png", 2560, 1440)] = Returned 1.
Proof.
  intros get. split; [|reflexivity].
  apply (proj1 (verdict_zero get [("CARD", Some "card.png", 1728, 2304)])).
  constructor; [reflexivity | constructor].
Defined.

End VerifyDimensionsFacts.

(** ** The interactive loop *)

Section InputFacts.
Import PyStr PromptTester.

Lemma input_loop_closed (input : list string) :
  forall lines empty_count,
    0 <= empty_count ->
    input_loop input lines empty_count
    = ((lines ++ before_blank input)%list, after_blank input).
Proof.
  induction input as [|line rest IH]; intros lines empty_count Hn.
  - cbn [input_loop before_blank after_blank]. now rewrite app_nil_r.
  - cbn [input_loop before_blank after_blank].
    destruct (String.eqb line EmptyString).
    + replace (empty_count + 1 >=? 1) with true; [now rewrite app_nil_r|].
      symmetry. apply Z.geb_le. lia.
    + rewrite IH by lia. now rewrite <- app_assoc.
Qed.

Lemma before_blank_nonempty (input : list string) :
  Forall (fun line => line <> EmptyString) (before_blank input).
Proof.
  induction input as [|line rest IH]; cbn [before_blank]; [constructor|].
  destruct (String.eqb line EmptyString) eqn:E; [constructor|].
  constructor; [now apply String.eqb_neq | exact IH].
Qed.

Lemma get_multiline_input_closed (w : world) :
  get_multiline_input w
  = (strip (join nl (before_blank (stdin w))),
     {| stdin := after_blank (stdin w); files := files w; clock := clock w |}).
Proof. unfold get_multiline_input. now rewrite input_loop_closed by lia. Qed.

(** X15: [get_multiline_input] returns the lines typed before the first
    empty line (or before the end of input), joined by newlines and
    stripped; it consumes that empty line and nothing after it, and leaves
    files and clock alone.  The branch that would keep an empty line is
    never taken. *)
Theorem get_multiline_input_reads (w : world) :
  get_multiline_input w
  = (strip (join nl (before_blank (stdin w))),
     {| stdin := after_blank (stdin w); files := files w; clock := clock w |})
  /\ trimmed (fst (get_multiline_input w))
  /\ Forall (fun line => line <> EmptyString) (before_blank (stdin w)).
Proof.
  split; [apply get_multiline_input_closed|]. split.
  - rewrite get_multiline_input_closed. apply strip_trimmed.
  - apply before_blank_nonempty.
Qed.

End InputFacts.

(** ** [run_interactive] *)

Section LoopFacts.
Import PyStr PromptTester.

Variable post : request -> outcome response.
Variable now : nat -> string.
Variables api_key model image_base64 mime_type output_dir : string.
Variable timeout : Z.
Variable debug : bool.

Local Notation "'pass'" :=
  (iteration post now api_key model image_base64 mime_type output_dir timeout debug).
Local Notation "'run'" :=
  (run_interactive post now api_key model image_base64 mime_type output_dir timeout debug).
Local Notation "'to_file'" :=
  (generate_to_file post api_key model image_base64 mime_type output_dir timeout debug).

(** a text that is none of the commands *)
Ltac not_a_command H :=
  unfold is_command in H;
  apply orb_false_iff in H; destruct H as [H Hboth];
  apply orb_false_iff in H; destruct H as [H Hscene];
  apply orb_false_iff in H; destruct H as [Hquit Hcard].

Lemma input_split (w : world) :
  get_multiline_input w
  = (fst (get_multiline_input w),
     {| stdin := after_blank (stdin w); files := files w; clock := clock w |}).
Proof. now rewrite get_multiline_input_closed. Qed.

Lemma iteration_at_end (w : world) (mode : string) :
  stdin w = [] -> pass w mode = Continue w mode.
Proof.
  intros He. unfold iteration, get_multiline_input.
  destruct w as [input fs n]. cbn [stdin files clock] in *. subst input.
  cbn [input_loop]. destruct (String.eqb mode "both"); reflexivity.
Qed.

(** X16: at the end of input the loop does not stop: every pass reads an
    empty prompt and goes round again, so no number of passes ends the
    run. *)
Theorem end_of_input_never_returns (fuel : nat) (w : world) (mode : string) :
  stdin w = [] -> run fuel w mode = None.
Proof.
  intros He. induction fuel as [|fuel IH]; [reflexivity|].
  cbn [run_interactive]. now rewrite (iteration_at_end w mode He).
Qed.

(** X17: a first text that is [quit], [exit] or [q], in any case and in any
    mode, ends the run at once: nothing is requested, no file is written and
    the clock is not read. *)
Theorem quit_ends_run (fuel : nat) (w : world) (mode : string) :
  nonempty (fst (get_multiline_input w)) = true ->
  is_quit (strip (lower (fst (get_multiline_input w)))) = true ->
  run (S fuel) w mode
  = Some (Finished {| stdin := after_blank (stdin w); files := files w; clock := clock w |}).
Proof.
  intros Hne Hq. cbn [run_interactive].
  unfold iteration. rewrite (input_split w), Hne, Hq. cbn [negb].
  destruct (String.eqb mode "both"); reflexivity.
Qed.

Lemma debug_response_image (data img : json) :
  first_image data img -> debug_response data = Returned tt.
Proof.
  intros (fields & choice & rest_choices & msg & rest & -> & Hc & Hm & Hi).
  unfold debug_response. cbn [py_keys bind py_in py_item]. rewrite Hc.
  cbn [bind py_len].
  replace (0 <? Z.of_nat (List.length (JDict choice :: rest_choices))) with true
    by (symmetry; apply Z.ltb_lt; cbn [List.length]; lia).
  cbn [py_first bind py_get]. rewrite Hm. cbn [with_default py_keys bind py_in py_item].
  rewrite Hi. reflexivity.
Qed.

Lemma extract_served (data img : json) (m : string) (bs : list byte) :
  first_image data img ->
  image_url_of img (data_uri m bs) ->
  In m standard_image_types ->
  extract data = Returned (Success (JStr (Base64.b64encode bs)) (JStr m)).
Proof.
  intros Hfirst Hurl Hm.
  destruct (data_uri_split m bs (standard_types_plain m Hm)) as (Hp & Hs & Hh).
  destruct (first_message_of_image data img Hfirst) as (msg & rest & Hmsg & Himg).
  unfold extract. rewrite Hmsg. cbn [bind].
  rewrite (images_step_first msg img rest Himg).
  rewrite (data_uri_candidate_url img _ Hurl), Hp, Hs, Hh. reflexivity.
Qed.

Lemma generate_image_served (prompt : string) (width height : option Z)
    (m : string) (bs : list byte) :
  serves post (request_of api_key model image_base64 mime_type prompt timeout width height)
    m bs ->
  generate_image post api_key model image_base64 mime_type prompt timeout width height debug
  = Returned (Success (JStr (Base64.b64encode bs)) (JStr m)).
Proof.
  intros (resp & data & img & Hpost & Hok & Hjson & Hfirst & Hurl & Hm).
  unfold generate_image. rewrite Hpost. cbn [bind]. rewrite Hok. cbn [negb].
  rewrite Hjson. cbn [bind]. rewrite (debug_response_image data img Hfirst).
  destruct debug; cbn [bind]; now apply (extract_served data img).
Qed.

Lemma to_file_served (kind prompt : string) (width height : Z) (timestamp : string)
    (w : world) (m : string) (bs : list byte) :
  serves post
    (request_of api_key model image_base64 mime_type prompt timeout (Some width) (Some height))
    m bs ->
  to_file kind prompt width height timestamp w
  = Kept {| stdin := stdin w;
            files := (output_dir ++ "/" ++ kind ++ "_" ++ timestamp ++ ".png", bs) :: files w;
            clock := clock w |}.
Proof.
  intros Hs. unfold generate_to_file. rewrite (generate_image_served _ _ _ m bs Hs).
  unfold save_image. now rewrite b64decode_b64encode.
Qed.



(** X20: in card or scene mode, when the server answers a prompt with a
    status from 400 to 599, the pass ends normally: nothing is written, the
    mode stays and the loop goes on. *)
Theorem http_error_keeps_running (w : world) (kind : string) (width height : Z)
    (s : Z) (b : string) (parsed : outcome json) :
  (kind = "card" /\ width = CARD_WIDTH /\ height = CARD_HEIGHT)
  \/ (kind = "scene" /\ width = SCENE_WIDTH /\ height = SCENE_HEIGHT) ->
  nonempty (fst (get_multiline_input w)) = true ->
  is_command (fst (get_multiline_input w)) = false ->
  post (request_of api_key model image_base64 mime_type (fst (get_multiline_input w)) timeout
          (Some width) (Some height))
  = Returned {| status_code := s; text := b; json_body := parsed |} ->
  400 <= s < 600 ->
  pass w kind
  = Continue
      {| stdin := after_blank (stdin w); files := files w; clock := S (clock w) |} kind.
Proof.
  intros Hkind Hne Hcmd Hpost Hs.
  not_a_command Hcmd.
  unfold iteration. rewrite (input_split w), Hne, Hquit, Hcard, Hscene, Hboth.
  cbn [negb fst]. unfold read_clock. cbn [stdin files clock].
  assert (Hgen : forall d,
             generate_image post api_key model image_base64 mime_type
               (fst (get_multiline_input w)) timeout (Some width) (Some height) d
             = Returned (Failure ("HTTP " ++ of_int s ++ ": " ++ take 200 b))).
  { intros d. unfold generate_image. rewrite Hpost. cbn [bind]. unfold ok.
    cbn [status_code text].
    replace (400 <=? s) with true by (symmetry; apply Z.leb_le; lia).
    replace (s <? 600) with true by (symmetry; apply Z.ltb_lt; lia).
    reflexivity. }
  destruct Hkind as [(-> & -> & ->) | (-> & -> & ->)]; cbn [String.eqb Ascii.eqb Bool.eqb];
    unfold generate_to_file; rewrite Hgen; reflexivity.
Qed.

(** X21: nothing in the loop catches an exception: when [requests.post]
    raises for a prompt typed in card or scene mode (a timeout, a refused
    connection), the run ends with that exception, and no file has been
    written by that pass. *)
Theorem post_exception_ends_run (fuel : nat) (w : world) (kind : string)
    (width height : Z) (e : pyexc) :
  (kind = "card" /\ width = CARD_WIDTH /\ height = CARD_HEIGHT)
  \/ (kind = "scene" /\ width = SCENE_WIDTH /\ height = SCENE_HEIGHT) ->
  nonempty (fst (get_multiline_input w)) = true ->
  is_command (fst (get_multiline_input w)) = false ->
  post (request_of api_key model image_base64 mime_type (fst (get_multiline_input w)) timeout
          (Some width) (Some height))
  = Raised e ->
  run (S fuel) w kind
  = Some (Crashed e
            {| stdin := after_blank (stdin w); files := files w; clock := S (clock w) |}).
Proof.
  intros Hkind Hne Hcmd Hpost.
  not_a_command Hcmd.
  cbn [run_interactive].
  unfold iteration. rewrite (input_split w), Hne, Hquit, Hcard, Hscene, Hboth.
  cbn [negb fst]. unfold read_clock. cbn [stdin files clock].
  destruct Hkind as [(-> & -> & ->) | (-> & -> & ->)]; cbn [String.eqb Ascii.eqb Bool.eqb];
    unfold generate_to_file, generate_image; rewrite Hpost; reflexivity.
Qed.

(** X22: [card] and [scene], typed in any mode, and [both], typed in card or
    scene mode, only switch the mode: nothing is requested or written and
    the clock is not read.  In both mode [both] is not a command. *)
Theorem mode_commands_switch (w : world) (mode : string) :
  let text := fst (get_multiline_input w) in
  let cmd := strip (lower text) in
  let w' := {| stdin := after_blank (stdin w); files := files w; clock := clock w |} in
  nonempty text = true ->
  (cmd = "card" \/ cmd = "scene" -> pass w mode = Continue w' cmd)
  /\ (cmd = "both" -> mode <> "both" -> pass w mode = Continue w' "both").
Proof.
  intros text cmd w' Hne. split.
  - intros Hc. unfold iteration. rewrite (input_split w). fold text w'. rewrite Hne.
    fold cmd. cbn [negb].
    destruct Hc as [-> | ->]; destruct (String.eqb mode "both"); reflexivity.
  - intros Hc Hmode. unfold iteration. rewrite (input_split w). fold text w'. rewrite Hne.
    fold cmd. rewrite Hc. cbn [negb].
    replace (String.eqb mode "both") with false; [reflexivity|].
    symmetry. now apply String.eqb_neq.
Qed.

Lemma save_image_not_string (image : json) (path : string) (fs : filesystem) :
  is_string image = false -> save_image image path fs = Raised TypeError.
Proof. destruct image; try reflexivity. discriminate. Qed.

(** X23: a [Success] does not guarantee a payload that can be saved: when
    the payload found in the response is not a string (a number or [null]
    under [data], say), [save_image] raises [TypeError], and in the loop the
    run ends with that exception without writing the file. *)
Theorem non_string_payload_ends_run (fuel : nat) (w : world) (kind : string)
    (width height : Z) (image mime : json) :
  (kind = "card" /\ width = CARD_WIDTH /\ height = CARD_HEIGHT)
  \/ (kind = "scene" /\ width = SCENE_WIDTH /\ height = SCENE_HEIGHT) ->
  nonempty (fst (get_multiline_input w)) = true ->
  is_command (fst (get_multiline_input w)) = false ->
  generate_image post api_key model image_base64 mime_type (fst (get_multiline_input w))
    timeout (Some width) (Some height) debug
  = Returned (Success image mime) ->
  is_string image = false ->
  run (S fuel) w kind
  = Some (Crashed TypeError
            {| stdin := after_blank (stdin w); files := files w; clock := S (clock w) |}).
Proof.
  intros Hkind Hne Hcmd Hgen Himage.
  not_a_command Hcmd.
  cbn [run_interactive].
  unfold iteration. rewrite (input_split w), Hne, Hquit, Hcard, Hscene, Hboth.
  cbn [negb fst]. unfold read_clock. cbn [stdin files clock].
  destruct Hkind as [(-> & -> & ->) | (-> & -> & ->)]; cbn [String.eqb Ascii.eqb Bool.eqb];
    unfold generate_to_file; rewrite Hgen, (save_image_not_string _ _ _ Himage);
    reflexivity.
Qed.

End LoopFacts.

Section LoopExamples.
Import PyStr PromptTester.

Lemma jpeg_served (req : request) : serves jpeg_server req "image/jpeg" [xff; xd8].
Proof.
  exists {| status_code := 200; text := EmptyString;
            json_body := Returned (response_with_url (data_uri "image/jpeg" [xff; xd8])) |},
    (response_with_url (data_uri "image/jpeg" [xff; xd8])),
    (JDict [("image_url", JDict [("url", JStr (data_uri "image/jpeg" [xff; xd8]))])]).
  repeat split.
  - unfold first_image. repeat eexists; reflexivity.
  - unfold image_url_of. repeat eexists; reflexivity.
  - simpl. tauto.
Defined.

Lemma end_of_input_never_returns_witness :
  run_interactive jpeg_server stamp "key" "model" "AAAA" "image/jpeg" "output" 120 false
    1000 {| stdin := []; files := []; clock := 0 |} "both"
  = None.
Proof.
  apply (end_of_input_never_returns jpeg_server stamp "key" "model" "AAAA" "image/jpeg"
           "output" 120 false 1000 {| stdin := []; files := []; clock := 0 |} "both").
  reflexivity.
Defined.

Lemma quit_ends_run_witness :
  run_interactive jpeg_server stamp "key" "model" "AAAA" "image/jpeg" "output" 120 false
    1 {| stdin := ["  QUIT "; EmptyString; "next"]; files := []; clock := 0 |} "scene"
  = Some (Finished {| stdin := ["next"]; files := []; clock := 0 |}).
Proof.
  apply (quit_ends_run jpeg_server stamp "key" "model" "AAAA" "image/jpeg" "output" 120 false
           0 {| stdin := ["  QUIT "; EmptyString; "next"]; files := []; clock := 0 |} "scene");
    reflexivity.
Defined.



Lemma http_error_keeps_running_witness :
  iteration
    (fun _ => Returned {| status_code := 429; text := "slow down";
                          json_body := Raised JSONDecodeError |})
    stamp "key" "model" "AAAA" "image/jpeg" "output" 120 false
    {| stdin := ["a cat"; EmptyString]; files := []; clock := 0 |} "scene"
  = Continue {| stdin := []; files := []; clock := 1 |} "scene".
Proof.
  apply (http_error_keeps_running
           (fun _ => Returned {| status_code := 429; text := "slow down";
                                 json_body := Raised JSONDecodeError |})
           stamp "key" "model" "AAAA" "image/jpeg" "output" 120 false
           {| stdin := ["a cat"; EmptyString]; files := []; clock := 0 |}
           "scene" SCENE_WIDTH SCENE_HEIGHT 429 "slow down" (Raised JSONDecodeError)).
  - right. repeat split.
  - reflexivity.
  - reflexivity.
  - reflexivity.
  - lia.
Defined.

Lemma post_exception_ends_run_witness :
  run_interactive (fun _ => Raised RequestException) stamp "key" "model" "AAAA" "image/jpeg"
    "output" 120 false 5
    {| stdin := ["a cat"; EmptyString; "quit"]; files := []; clock := 0 |} "card"
  = Some (Crashed RequestException {| stdin := ["quit"]; files := []; clock := 1 |}).
Proof.
  apply (post_exception_ends_run (fun _ => Raised RequestException) stamp "key" "model" "AAAA"
           "image/jpeg" "output" 120 false 4
           {| stdin := ["a cat"; EmptyString; "quit"]; files := []; clock := 0 |}
           "card" CARD_WIDTH CARD_HEIGHT RequestException).
  - left. repeat split.
  - reflexivity.
  - reflexivity.
  - reflexivity.
Defined.

Lemma mode_commands_switch_witness :
  iteration jpeg_server stamp "key" "model" "AAAA" "image/jpeg" "output" 120 false
    {| stdin := ["Scene"; EmptyString]; files := []; clock := 0 |} "both"
  = Continue {| stdin := []; files := []; clock := 0 |} "scene"
  /\ iteration jpeg_server stamp "key" "model" "AAAA" "image/jpeg" "output" 120 false
       {| stdin := ["BOTH"; EmptyString]; files := []; clock := 0 |} "card"
     = Continue {| stdin := []; files := []; clock := 0 |} "both".
Proof.
  split.
  - apply (proj1 (mode_commands_switch jpeg_server stamp "key" "model" "AAAA" "image/jpeg"
                    "output" 120 false
                    {| stdin := ["Scene"; EmptyString]; files := []; clock := 0 |} "both"
                    eq_refl)).
    now right.
  - apply (proj2 (mode_commands_switch jpeg_server stamp "key" "model" "AAAA" "image/jpeg"
                    "output" 120 false
                    {| stdin := ["BOTH"; EmptyString]; files := []; clock := 0 |} "card"
                    eq_refl)).
    + reflexivity.
    + discriminate.
Defined.

Lemma non_string_payload_ends_run_witness :
  run_interactive number_server stamp "key" "model" "AAAA" "image/jpeg" "output" 120 false 3
    {| stdin := ["a cat"; EmptyString]; files := []; clock := 0 |} "card"
  = Some (Crashed TypeError {| stdin := []; files := []; clock := 1 |}).
Proof.
  apply (non_string_payload_ends_run number_server stamp "key" "model" "AAAA" "image/jpeg"
           "output" 120 false 2
           {| stdin := ["a cat"; EmptyString]; files := []; clock := 0 |}
           "card" CARD_WIDTH CARD_HEIGHT (JInt 7) (JStr "image/png")).
  - left. repeat split.
  - reflexivity.
  - reflexivity.
  - reflexivity.
  - reflexivity.
Defined.

End LoopExamples.

(** ** What a run leaves untouched *)

Section FrameFacts.
Import PyStr PromptTester.

Variable post : request -> outcome response.
Variable now : nat -> string.
Variables api_key model image_base64 mime_type output_dir : string.
Variable timeout : Z.
Variable debug : bool.

Local Notation "'pass'" :=
  (iteration post now api_key model image_base64 mime_type output_dir timeout debug).
Local Notation "'run'" :=
  (run_interactive post now api_key model image_base64 mime_type output_dir timeout debug).
Local Notation "'to_file'" :=
  (generate_to_file post api_key model image_base64 mime_type output_dir timeout debug).

Local Notation "'same'" := (same_elsewhere output_dir).

Lemma same_elsewhere_refl (w : world) : same w w.
Proof. intros path _. reflexivity. Qed.

Lemma same_elsewhere_trans (w1 w2 w3 : world) :
  same w1 w2 -> same w2 w3 -> same w1 w3.
Proof. intros H12 H23 path Hp. now rewrite (H23 path Hp), (H12 path Hp). Qed.

Lemma session_path_kind (kind timestamp : string) :
  kind = "card" \/ kind = "scene" ->
  session_path output_dir (output_dir ++ "/" ++ kind ++ "_" ++ timestamp ++ ".png") = true.
Proof.
  intros Hk. unfold session_path. apply orb_true_iff.
  destruct Hk as [-> | ->]; [left | right].
  - replace (output_dir ++ "/" ++ "card" ++ "_" ++ timestamp ++ ".png")
      with ((output_dir ++ "/card_") ++ timestamp ++ ".png")
      by now rewrite append_assoc'.
    apply prefix_append.
  - replace (output_dir ++ "/" ++ "scene" ++ "_" ++ timestamp ++ ".png")
      with ((output_dir ++ "/scene_") ++ timestamp ++ ".png")
      by now rewrite append_assoc'.
    apply prefix_append.
Qed.

Lemma to_file_frame (kind prompt : string) (width height : Z) (timestamp : string)
    (w : world) :
  kind = "card" \/ kind = "scene" ->
  match to_file kind prompt width height timestamp w with
  | Kept w' => same w w'
  | Failed _ w' => w' = w
  end.
Proof.
  intros Hk. unfold generate_to_file.
  destruct (generate_image _ _ _ _ _ _ _ _ _ _) as [[image mime|err]|e];
    try reflexivity; [|apply same_elsewhere_refl].
  unfold save_image.
  destruct (Base64.b64decode image) as [bytes|e]; cbn [bind]; [|reflexivity].
  intros path Hp. cbn [files read_file].
  destruct (String.eqb path _) eqn:E; [|reflexivity].
  apply String.eqb_eq in E. subst path.
  rewrite (session_path_kind kind timestamp Hk) in Hp. discriminate.
Qed.

Lemma input_frame (w : world) : same w (snd (get_multiline_input w)).
Proof. rewrite (input_split w). intros path _. reflexivity. Qed.

Lemma pass_frame (w : world) (mode : string) :
  match pass w mode with
  | Continue w' _ => same w w'
  | Break w' => same w w'
  | Crash _ w' => same w w'
  end.
Proof.
  set (w1 := {| stdin := after_blank (stdin w); files := files w; clock := clock w |}).
  assert (H1 : same w w1) by (intros path _; reflexivity).
  set (w2 := {| stdin := after_blank (stdin w1); files := files w1; clock := clock w1 |}).
  assert (H2 : same w w2) by (intros path _; reflexivity).
  unfold iteration. rewrite (input_split w). fold w1.
  destruct (String.eqb mode "both").
  - destruct (negb (nonempty _)); [exact H1|].
    destruct (is_quit _); [exact H1|].
    destruct (String.eqb _ "card"); [exact H1|].
    destruct (String.eqb _ "scene"); [exact H1|].
    rewrite (input_split w1). fold w2.
    destruct (negb (nonempty _)); [exact H2|].
    destruct (is_quit _); [exact H2|].
    destruct (String.eqb _ "card"); [exact H2|].
    destruct (String.eqb _ "scene"); [exact H2|].
    unfold read_clock.
    set (w3 := {| stdin := stdin w2; files := files w2; clock := S (clock w2) |}).
    assert (H3 : same w w3) by (intros path _; reflexivity).
    pose proof (to_file_frame "card" (fst (get_multiline_input w)) CARD_WIDTH CARD_HEIGHT
                  (now (clock w2)) w3 (or_introl eq_refl)) as Hc.
    destruct (to_file "card" _ _ _ _ w3) as [w4|e w4]; [|now subst w4].
    pose proof (to_file_frame "scene" (fst (get_multiline_input w1)) SCENE_WIDTH SCENE_HEIGHT
                  (now (clock w2)) w4 (or_intror eq_refl)) as Hs.
    destruct (to_file "scene" _ _ _ _ w4) as [w5|e w5].
    + exact (same_elsewhere_trans _ _ _ (same_elsewhere_trans _ _ _ H3 Hc) Hs).
    + subst w5. exact (same_elsewhere_trans _ _ _ H3 Hc).
  - destruct (negb (nonempty _)); [exact H1|].
    destruct (is_quit _); [exact H1|].
    destruct (String.eqb _ "card"); [exact H1|].
    destruct (String.eqb _ "scene"); [exact H1|].
    destruct (String.eqb _ "both"); [exact H1|].
    unfold read_clock.
    set (w3 := {| stdin := stdin w1; files := files w1; clock := S (clock w1) |}).
    assert (H3 : same w w3) by (intros path _; reflexivity).
    destruct (String.eqb mode "card").
    + pose proof (to_file_frame "card" (fst (get_multiline_input w)) CARD_WIDTH CARD_HEIGHT
                    (now (clock w1)) w3 (or_introl eq_refl)) as Hc.
      destruct (to_file "card" _ _ _ _ w3) as [w4|e w4]; [|now subst w4].
      exact (same_elsewhere_trans _ _ _ H3 Hc).
    + destruct (String.eqb mode "scene"); [|exact H3].
      pose proof (to_file_frame "scene" (fst (get_multiline_input w)) SCENE_WIDTH SCENE_HEIGHT
                    (now (clock w1)) w3 (or_intror eq_refl)) as Hs.
      destruct (to_file "scene" _ _ _ _ w3) as [w4|e w4]; [|now subst w4].
      exact (same_elsewhere_trans _ _ _ H3 Hs).
Qed.


End FrameFacts.

Section FrameExamples.
Import PyStr PromptTester.


End FrameExamples.

(** ** The mode of the loop *)

Section ModeFacts.
Import PyStr PromptTester.

Variable post : request -> outcome response.
Variable now : nat -> string.
Variables api_key model image_base64 mime_type output_dir : string.
Variable timeout : Z.
Variable debug : bool.

Local Notation "'pass'" :=
  (iteration post now api_key model image_base64 mime_type output_dir timeout debug).

Lemma pass_mode (w w' : world) (mode mode' : string) :
  pass w mode = Continue w' mode' -> mode' = mode \/ valid_mode mode'.
Proof.
  unfold iteration, valid_mode.
  destruct (String.eqb mode "both").
  - destruct (get_multiline_input w) as [card_prompt w1].
    destruct (negb (nonempty card_prompt)); [intros H; injection H; auto|].
    destruct (is_quit _); [discriminate|].
    destruct (String.eqb _ "card"); [intros H; injection H; auto|].
    destruct (String.eqb _ "scene"); [intros H; injection H; auto|].
    destruct (get_multiline_input w1) as [scene_prompt w2].
    destruct (negb (nonempty scene_prompt)); [intros H; injection H; auto|].
    destruct (is_quit _); [discriminate|].
    destruct (String.eqb _ "card"); [intros H; injection H; auto|].
    destruct (String.eqb _ "scene"); [intros H; injection H; auto|].
    destruct (read_clock now w2) as [timestamp w3].
    destruct (generate_to_file _ _ _ _ _ _ _ _ "card" _ _ _ _ _); [|discriminate].
    destruct (generate_to_file _ _ _ _ _ _ _ _ "scene" _ _ _ _ _); [|discriminate].
    intros H; injection H; auto.
  - destruct (get_multiline_input w) as [prompt w1].
    destruct (negb (nonempty prompt)); [intros H; injection H; auto|].
    destruct (is_quit _); [discriminate|].
    destruct (String.eqb _ "card"); [intros H; injection H; auto|].
    destruct (String.eqb _ "scene"); [intros H; injection H; auto|].
    destruct (String.eqb _ "both"); [intros H; injection H; auto|].
    destruct (read_clock now w1) as [timestamp w2].
    destruct (String.eqb mode "card").
    + destruct (generate_to_file _ _ _ _ _ _ _ _ "card" _ _ _ _ _); [|discriminate].
      intros H; injection H; auto.
    + destruct (String.eqb mode "scene"); [|intros H; injection H; auto].
      destruct (generate_to_file _ _ _ _ _ _ _ _ "scene" _ _ _ _ _); [|discriminate].
      intros H; injection H; auto.
Qed.

(** X25: the mode is always one of [both], [card] and [scene]: [main]
    starts the loop in one of them whatever the flags, and a pass that
    starts in one of them continues in one of them.  So the loop never
    reaches the case, after its two tests of the mode, where a prompt is
    read and then dropped. *)
Theorem mode_stays_valid (card scene : bool) (w w' : world) (mode mode' : string) :
  valid_mode (mode_of_flags card scene)
  /\ (valid_mode mode -> pass w mode = Continue w' mode' -> valid_mode mode').
Proof.
  split.
  - unfold valid_mode, mode_of_flags. destruct card, scene; cbn; auto.
  - intros Hv Hp. destruct (pass_mode w w' mode mode' Hp) as [-> | H]; assumption.
Qed.

End ModeFacts.

Section ModeExamples.
Import PyStr PromptTester.

Lemma mode_stays_valid_witness :
  valid_mode (mode_of_flags true false)
  /\ valid_mode "scene".
Proof.
  pose proof (mode_stays_valid jpeg_server stamp "key" "model" "AAAA" "image/jpeg" "output" 120
                false true false
                {| stdin := ["scene"; EmptyString]; files := []; clock := 0 |}
                {| stdin := []; files := []; clock := 0 |}
                (mode_of_flags true false) "scene") as [Hstart Hstep].
  split; [exact Hstart|].
  apply Hstep; [exact Hstart | reflexivity].
Defined.

End ModeExamples.
